(** * rmtool: metadata validation and the render context

    A shallow embedding of the parts of [github.com/akeil/rmtool] that decide
    how a notebook's [.content] metadata is validated, how a rendering
    [Context] resolves brushes, colours and sprite masks, and how a document
    is assembled into a PDF.

    Conventions.
    - Go's [int] is the 64-bit two's-complement integer; values are carried
      as [Z] and every arithmetic operation of the source is wrapped with
      [wrap64].  Comparisons need no wrapping.
    - A Go map is a [gmap]; reading a missing key gives the zero value of the
      element type, which is written out at each lookup.
    - An interface value that may be [nil] is an [option].
    - A method with a pointer receiver that fills a cache is a function from
      the receiver's state to a result and the new state. *)

From Stdlib Require Import ZArith Lia.
From stdpp Require Import base option list gmap strings.

Local Open Scope Z_scope.

(** ** Go's [int] *)

Module goint.

Definition wrap64 (z : Z) : Z := (z + 2 ^ 63) mod 2 ^ 64 - 2 ^ 63.

Definition in_int64 (z : Z) : Prop := - 2 ^ 63 <= z < 2 ^ 63.

Definition sub (a b : Z) : Z := wrap64 (a - b).
Definition mul (a b : Z) : Z := wrap64 (a * b).
Definition add (a b : Z) : Z := wrap64 (a + b).

End goint.

(** ** Package [pkg/lines]: the decoded ink of one page *)

Module lines.

(** Modelled from the spec: the declaration of [lines.BrushType] is not
    part of the sources at hand.  The spec calls it a "brush-kind
    identifier" and speaks of unknown and unsupported kinds.  The fifteen
    named constants are the keys of the map literal [brushNames], which Go
    only accepts when they are pairwise different; every other value of
    the type is [OtherBrush n]. *)
Inductive BrushType : Type :=
| Ballpoint | BallpointV5
| Pencil | PencilV5
| MechanicalPencil | MechanicalPencilV5
| Marker | MarkerV5
| Fineliner | FinelinerV5
| Highlighter | HighlighterV5
| PaintBrush | PaintBrushV5
| CalligraphyV5
| OtherBrush (n : nat).

(** Modelled from the spec: the declaration of [lines.BrushColor] is not
    part of the sources at hand.  The spec calls it a "color identifier";
    [Black], [Gray] and [White] are the keys of the map literal
    [defaultColors], every other value of the type is [OtherColor n]. *)
Inductive BrushColor : Type :=
| Black | Gray | White
| OtherColor (n : nat).

#[global] Instance BrushType_eq_dec : EqDecision BrushType.
Proof. solve_decision. Defined.

#[global] Instance BrushColor_eq_dec : EqDecision BrushColor.
Proof. solve_decision. Defined.

Definition BrushType_to_nat (bt : BrushType) : nat :=
  match bt with
  | Ballpoint => 0 | BallpointV5 => 1
  | Pencil => 2 | PencilV5 => 3
  | MechanicalPencil => 4 | MechanicalPencilV5 => 5
  | Marker => 6 | MarkerV5 => 7
  | Fineliner => 8 | FinelinerV5 => 9
  | Highlighter => 10 | HighlighterV5 => 11
  | PaintBrush => 12 | PaintBrushV5 => 13
  | CalligraphyV5 => 14
  | OtherBrush n => 15 + n
  end%nat.

Definition BrushType_of_nat (k : nat) : BrushType :=
  match k with
  | 0 => Ballpoint | 1 => BallpointV5
  | 2 => Pencil | 3 => PencilV5
  | 4 => MechanicalPencil | 5 => MechanicalPencilV5
  | 6 => Marker | 7 => MarkerV5
  | 8 => Fineliner | 9 => FinelinerV5
  | 10 => Highlighter | 11 => HighlighterV5
  | 12 => PaintBrush | 13 => PaintBrushV5
  | 14 => CalligraphyV5
  | S (S (S (S (S (S (S (S (S (S (S (S (S (S (S n)))))))))))))) => OtherBrush n
  end%nat.

Definition BrushColor_to_nat (bc : BrushColor) : nat :=
  match bc with
  | Black => 0 | Gray => 1 | White => 2
  | OtherColor n => 3 + n
  end%nat.

Definition BrushColor_of_nat (k : nat) : BrushColor :=
  match k with
  | 0 => Black | 1 => Gray | 2 => White
  | S (S (S n)) => OtherColor n
  end%nat.

#[global] Program Instance BrushType_countable : Countable BrushType :=
  inj_countable' BrushType_to_nat BrushType_of_nat _.
Next Obligation. intros []; reflexivity. Defined.

#[global] Program Instance BrushColor_countable : Countable BrushColor :=
  inj_countable' BrushColor_to_nat BrushColor_of_nat _.
Next Obligation. intros []; reflexivity. Defined.

(** Modelled from the spec: the declarations of [Segment], [Stroke],
    [Layer] and [Drawing] are not part of the sources at hand.  Spec, data
    model: a Segment is a sample with position, pressure, tilt, speed and
    width; a Stroke has a brush kind, a colour, a base thickness and its
    Segments in order; a Layer is its Strokes in paint order; a Drawing is
    its Layers in paint order.  The sampled quantities are floating-point
    numbers in the source; they are carried here as opaque codes. *)
Record Segment : Type := mkSegment {
  seg_X : Z; seg_Y : Z;
  seg_Pressure : Z; seg_Tilt : Z; seg_Speed : Z; seg_Width : Z
}.

Record Stroke : Type := mkStroke {
  stroke_BrushType : BrushType;
  stroke_BrushColor : BrushColor;
  stroke_BrushSize : Z;
  stroke_Segments : list Segment
}.

Record Layer : Type := mkLayer { layer_Strokes : list Stroke }.

Record Drawing : Type := mkDrawing { drawing_Layers : list Layer }.

End lines.

(** ** Go's standard packages [image] and [image/color]

    Only what the render context calls: rectangles, the [RGBA] image with
    its shared pixel buffer, sub-images and uniform fills. *)

Module color.

(** The concrete colours that occur in the source: [color.Gray16] (of
    which [color.Black] and [color.White] are values) and [color.RGBA]. *)
Inductive value : Type :=
| Gray16 (y : Z)
| RGBA (r g b a : Z).

(** [color.Color] is an interface: [None] is the [nil] interface value. *)
Definition Color : Type := option value.

Definition Black : Color := Some (Gray16 0).
Definition White : Color := Some (Gray16 65535).

End color.

Module image.

Record Point : Type := Pt { X : Z; Y : Z }.

Record Rectangle : Type := mkRectangle { Min : Point; Max : Point }.

(** The zero Rectangle, [image.ZR]. *)
Definition ZR : Rectangle := mkRectangle (Pt 0 0) (Pt 0 0).

(** [image.Rect]: the arguments are put in canonical order. *)
Definition Rect (x0 y0 x1 y1 : Z) : Rectangle :=
  let '(x0, x1) := if x0 >? x1 then (x1, x0) else (x0, x1) in
  let '(y0, y1) := if y0 >? y1 then (y1, y0) else (y0, y1) in
  mkRectangle (Pt x0 y0) (Pt x1 y1).

(** [r.Dx()] is [r.Max.X - r.Min.X], [r.Dy()] is [r.Max.Y - r.Min.Y]. *)
Definition Dx (r : Rectangle) : Z := goint.sub (X (Max r)) (X (Min r)).
Definition Dy (r : Rectangle) : Z := goint.sub (Y (Max r)) (Y (Min r)).

Definition Empty (r : Rectangle) : bool :=
  (X (Min r) >=? X (Max r)) || (Y (Min r) >=? Y (Max r)).

Definition Intersect (r s : Rectangle) : Rectangle :=
  let minx := if X (Min r) <? X (Min s) then X (Min s) else X (Min r) in
  let miny := if Y (Min r) <? Y (Min s) then Y (Min s) else Y (Min r) in
  let maxx := if X (Max r) >? X (Max s) then X (Max s) else X (Max r) in
  let maxy := if Y (Max r) >? Y (Max s) then Y (Max s) else Y (Max r) in
  let r' := mkRectangle (Pt minx miny) (Pt maxx maxy) in
  if Empty r' then ZR else r'.

(** [r.In(s)]: every point of [r] is a point of [s]. *)
Definition In (r s : Rectangle) : bool :=
  if Empty r then true
  else (X (Min s) <=? X (Min r)) && (X (Max r) <=? X (Max s))
       && (Y (Min s) <=? Y (Min r)) && (Y (Max r) <=? Y (Max s)).

(** [image.RGBA]: the pixel buffer [Pix] (bytes), the [Stride] between
    rows and the bounds.  A sub-image shares the buffer of its parent
    from the offset of its first pixel on. *)
Record RGBA : Type := mkRGBA {
  Pix : list Z;
  Stride : Z;
  Rect_ : Rectangle
}.

Definition Bounds (p : RGBA) : Rectangle := Rect_ p.

Definition PixOffset (p : RGBA) (x y : Z) : Z :=
  goint.add (goint.mul (goint.sub y (Y (Min (Rect_ p)))) (Stride p))
            (goint.mul (goint.sub x (X (Min (Rect_ p)))) 4).

(** [p.SubImage(r)]: the part of [p] visible through [r]. *)
Definition SubImage (p : RGBA) (r : Rectangle) : RGBA :=
  let r := Intersect r (Rect_ p) in
  if Empty r then mkRGBA [] 0 ZR
  else
    let i := PixOffset p (X (Min r)) (Y (Min r)) in
    mkRGBA (drop (Z.to_nat i) (Pix p)) (Stride p) r.

(** [image.NewUniform(c)]: an unbounded image of one colour. *)
Inductive Uniform : Type := NewUniform (c : color.Color).

Definition Uniform_C (u : Uniform) : color.Color :=
  match u with NewUniform c => c end.

(** [image.NewRGBA(r)]: a fresh image with the bounds [r], all zero. *)
Definition NewRGBA (r : Rectangle) : RGBA :=
  mkRGBA (replicate (Z.to_nat (goint.mul (goint.mul 4 (Dx r)) (Dy r))) 0)
         (goint.mul 4 (Dx r)) r.

(** [p.In(r)] for a point. *)
Definition Point_In (p : Point) (r : Rectangle) : bool :=
  (X (Min r) <=? X p) && (X p <? X (Max r))
  && (Y (Min r) <=? Y p) && (Y p <? Y (Max r)).

(** [p.Set(x, y, c)], with [c] the four bytes of the converted colour:
    a point outside the bounds is left alone. *)
Definition Set_ (p : RGBA) (x y : Z) (c : list Z) : RGBA :=
  if negb (Point_In (Pt x y) (Rect_ p)) then p
  else mkRGBA (list_inserts (Z.to_nat (PixOffset p x y)) c (Pix p))
              (Stride p) (Rect_ p).

(** The four bytes of the pixel at [(x, y)] of [p], found where
    [PixOffset] says, are [c]. *)
Definition pixel_is (p : RGBA) (x y : Z) (c : list Z) : Prop :=
  forall j, (j < 4)%nat ->
            Pix p !! (Z.to_nat (PixOffset p x y) + j)%nat = c !! j.

End image.

(** ** Errors

    Go's [error] is an interface; the modelled code builds its values with
    [errors.NewValidationError] and [fmt.Errorf], or hands on what a
    collaborator returned.  Every error built by the modelled code is one
    constructor whose arguments are the values that the source formats into
    the message. *)

Module errors.

Inductive ValidationErrorMsg : Type :=
| InvalidFileType (ft : Z)
    (* "invalid file type %v" *)
| InvalidOrientation (o : Z)
    (* "invalid orientation %v" *)
| PageCountMismatch (pageCount len : Z)
    (* "pageCount does not match number of pages %v != %v" *)
| CoverPageNotExisting (cover : Z)
    (* "cover page %v is not an existing page" *)
| InvalidTextAlign (ta : Z)
    (* "invalid text align %v" *)
| NoLayersDefined
    (* "no layers defined" *)
| MaxLayersExceeded
    (* "maximum number of layers exceeded" *)
| EmptyLayerName.
    (* "layer name must not be empty" *)

(** The messages of package [render], built with [fmt.Errorf]. *)
Inductive ErrorfMsg : Type :=
| InvalidColor (bc : lines.BrushColor)
    (* "invalid color %v" *)
| UnsupportedBrushType (bt : lines.BrushType)
    (* "unsupported brush type %v" *)
| NoSpriteImage (name : string)
    (* "no sprite image for brush %q" *)
| InvalidSpriteEntry (name : string)
    (* "invalid sprite entry for brush %q" *)
| SpriteBoundsNotWithin
    (* "sprite bounds not within spritesheet dimensions" *)
| RenderPdfNotSupported (ft : Z).
    (* "render Pdf not supported for file type %q" *)

(** Modelled from the spec: [errors.NewValidationError] lives in
    [internal/errors], which is not part of the sources at hand; the spec
    names its result a ValidationError, "malformed Content/metadata".
    [External] stands for the errors of the collaborators: the operating
    system, the JSON and PNG decoders, the document store and the PDF
    library. *)
Inductive error : Type :=
| ValidationError (msg : ValidationErrorMsg)
| Errorf (msg : ErrorfMsg)
| External (msg : string).

Definition NewValidationError (msg : ValidationErrorMsg) : error :=
  ValidationError msg.

(** A value together with an error, as in [(T, error)]. *)
Inductive result (A : Type) : Type :=
| Ok (a : A)
| Err (e : error).
Arguments Ok {A} a.
Arguments Err {A} e.

Definition is_Ok {A} (r : result A) : bool :=
  match r with Ok _ => true | Err _ => false end.

End errors.

(** ** Package [rmtool]: the [.content] metadata *)

Module rmtool.

(** [type Orientation int], [Portrait Orientation = iota]. *)
Definition Orientation := Z.
Definition Portrait : Orientation := 0.
Definition Landscape : Orientation := 1.

(** [type FileType int], [Notebook FileType = iota]. *)
Definition FileType := Z.
Definition Notebook : FileType := 0.
Definition Epub : FileType := 1.
Definition Pdf : FileType := 2.

Definition LineHeight := Z.
Definition LineHeightDefault : LineHeight := -1.
Definition LineHeightSmall : LineHeight := 100.
Definition LineHeightMedium : LineHeight := 150.
Definition LineHeightLarge : LineHeight := 200.

(** [type TextAlign int], [AlignLeft TextAlign = iota]. *)
Definition TextAlign := Z.
Definition AlignLeft : TextAlign := 0.
Definition AlignJustify : TextAlign := 1.

Definition blankTemplate : string := "Blank".
Definition maxLayers : Z := 5.
Definition defaultCoverPage : Z := -1.

Record Transform : Type := mkTransform {
  M11 : Z; M12 : Z; M13 : Z;
  M21 : Z; M22 : Z; M23 : Z;
  M31 : Z; M32 : Z; M33 : Z
}.

Definition NewTransform : Transform :=
  {| M11 := 1; M12 := 0; M13 := 0;
     M21 := 0; M22 := 1; M23 := 0;
     M31 := 0; M32 := 0; M33 := 1 |}.

(** The fields of [Content] that [Validate] reads, and the settings next to
    them.  [ExtraMetadata] (last-used tool settings) and [TextScale] (a
    [float32]) are never read by the modelled code and are left out. *)
Record Content : Type := mkContent {
  DummyDocument : bool;
  FileType_ : FileType;
  Orientation_ : Orientation;
  PageCount : Z;
  Pages : list string;
  CoverPageNumber : Z;
  FontName : string;
  LineHeight_ : LineHeight;
  Margins : Z;
  TextAlignment : TextAlign;
  Transform_ : Transform
}.

Definition NewContent (f : FileType) : Content :=
  {| DummyDocument := false;
     CoverPageNumber := defaultCoverPage;
     FileType_ := f;
     Orientation_ := Portrait;
     PageCount := 0;
     Pages := [];
     FontName := "";
     LineHeight_ := LineHeightDefault;
     Margins := 100;
     TextAlignment := AlignLeft;
     Transform_ := NewTransform |}.

(** [len(c.Pages)] *)
Definition len {A} (l : list A) : Z := Z.of_nat (length l).

(** [func (c *Content) Validate() error]; [None] is the [nil] error. *)
Definition Validate (c : Content) : option errors.error :=
  if negb ((FileType_ c =? Notebook) || (FileType_ c =? Pdf) || (FileType_ c =? Epub))
  then Some (errors.NewValidationError (errors.InvalidFileType (FileType_ c)))
  else if negb ((Orientation_ c =? Portrait) || (Orientation_ c =? Landscape))
  then Some (errors.NewValidationError (errors.InvalidOrientation (Orientation_ c)))
  else if negb (PageCount c =? len (Pages c))
  then Some (errors.NewValidationError
               (errors.PageCountMismatch (PageCount c) (len (Pages c))))
  else if negb (CoverPageNumber c =? defaultCoverPage)
            && ((CoverPageNumber c <? 1) || (CoverPageNumber c >? PageCount c))
  then Some (errors.NewValidationError
               (errors.CoverPageNotExisting (CoverPageNumber c)))
  else if negb ((TextAlignment c =? AlignLeft) || (TextAlignment c =? AlignJustify))
  then Some (errors.NewValidationError (errors.InvalidTextAlign (TextAlignment c)))
  else None.

(** The conditions under which [Validate] gives no error. *)
Definition valid_file_type (c : Content) : Prop :=
  FileType_ c = Notebook \/ FileType_ c = Pdf \/ FileType_ c = Epub.

Definition valid_orientation (c : Content) : Prop :=
  Orientation_ c = Portrait \/ Orientation_ c = Landscape.

Definition valid_text_alignment (c : Content) : Prop :=
  TextAlignment c = AlignLeft \/ TextAlignment c = AlignJustify.

(** The cover page is unset, or it is the number of one of the
    [PageCount] pages, counted from one as [Validate] counts them. *)
Definition cover_page_unset (c : Content) : Prop :=
  CoverPageNumber c = defaultCoverPage.

Definition cover_page_existing (c : Content) : Prop :=
  1 <= CoverPageNumber c <= PageCount c.

(** [PageMetadata] and [LayerMetadata]. *)
Record LayerMetadata : Type := mkLayerMetadata { Name : string }.

Definition LayerMetadata_Validate (l : LayerMetadata) : option errors.error :=
  if String.eqb (Name l) ""
  then Some (errors.NewValidationError errors.EmptyLayerName)
  else None.

(** [Layers] is a slice: [None] is the [nil] slice. *)
Record PageMetadata : Type := mkPageMetadata {
  Layers : option (list LayerMetadata)
}.

Fixpoint validate_layers (ls : list LayerMetadata) : option errors.error :=
  match ls with
  | [] => None
  | l :: ls' =>
      match LayerMetadata_Validate l with
      | Some err => Some err
      | None => validate_layers ls'
      end
  end.

Definition PageMetadata_Validate (p : PageMetadata) : option errors.error :=
  match Layers p with
  | None => Some (errors.NewValidationError errors.NoLayersDefined)
  | Some ls =>
      if len ls =? 0
      then Some (errors.NewValidationError errors.NoLayersDefined)
      else if len ls >? maxLayers
      then Some (errors.NewValidationError errors.MaxLayersExceeded)
      else validate_layers ls
  end.

(** *** The enumerations as text and as JSON *)

(** [type NotebookType int], [DocumentType NotebookType = iota]. *)
Definition NotebookType := Z.
Definition DocumentType : NotebookType := 0.
Definition CollectionType : NotebookType := 1.

(** The errors that the JSON methods build with [fmt.Errorf], and the
    errors of [encoding/json]. *)
Inductive CodecMsg : Type :=
| InvalidNotebookTypeQ (s : string)
    (* "invalid notebook type %q" *)
| InvalidNotebookTypeV (v : Z)
    (* "invalid notebook type %v" *)
| InvalidFileTypeQ (s : string)
    (* "invalid file type %q" *)
| InvalidFileTypeV (v : Z)
    (* "invalid file type %v" *)
| InvalidTextAlignQ (s : string)
    (* "invalid text align %q" *)
| InvalidTextAlignTypeV (v : Z).
    (* "invalid text align type %v" *)

Inductive CodecError : Type :=
| CodecErrorf (msg : CodecMsg)
| JsonError (msg : string).

(** [json.Unmarshal(b, &s)] with [s] a fresh string: it fails with a
    message, or it leaves a text in [s]. *)
Class Json : Type := {
  Unmarshal_string : string -> string + string
}.

(** [func (o Orientation) String() string]. *)
Definition Orientation_String (o : Orientation) : string :=
  if o =? Portrait then "portrait"
  else if o =? Landscape then "landscape"
  else "UNKNOWN".

(** [func (f FileType) String() string]. *)
Definition FileType_String (f : FileType) : string :=
  if f =? Notebook then "notebook"
  else if f =? Epub then "epub"
  else if f =? Pdf then "pdf"
  else "UNKNOWN".

(** [func (f FileType) Ext() string]. *)
Definition FileType_Ext (f : FileType) : string :=
  if f =? Epub then ".epub"
  else if f =? Pdf then ".pdf"
  else "".

(** [func (t TextAlign) String() string]. *)
Definition TextAlign_String (t : TextAlign) : string :=
  if t =? AlignLeft then "left"
  else if t =? AlignJustify then "justify"
  else "UNKNOWN".

(** The buffer that the [MarshalJSON] methods fill: a quote, the text, a
    quote. *)
Definition dquote : string := String (Ascii.ascii_of_nat 34) "".

Definition quoted (s : string) : string := dquote +:+ s +:+ dquote.

(** [func (n NotebookType) MarshalJSON() ([]byte, error)]. *)
Definition NotebookType_MarshalJSON (n : NotebookType) : CodecError + string :=
  if n =? DocumentType then inr (quoted "DocumentType")
  else if n =? CollectionType then inr (quoted "CollectionType")
  else inl (CodecErrorf (InvalidNotebookTypeV n)).

(** [func (o Orientation) MarshalJSON() ([]byte, error)]. *)
Definition Orientation_MarshalJSON (o : Orientation) : CodecError + string :=
  let s := Orientation_String o in
  if String.eqb s "UNKNOWN" then inl (CodecErrorf (InvalidNotebookTypeV o))
  else inr (quoted s).

(** [func (f FileType) MarshalJSON() ([]byte, error)]. *)
Definition FileType_MarshalJSON (f : FileType) : CodecError + string :=
  let s := FileType_String f in
  if String.eqb s "UNKNOWN" then inl (CodecErrorf (InvalidFileTypeV f))
  else inr (quoted s).

(** [func (t TextAlign) MarshalJSON() ([]byte, error)]. *)
Definition TextAlign_MarshalJSON (t : TextAlign) : CodecError + string :=
  let s := TextAlign_String t in
  if String.eqb s "UNKNOWN" then inl (CodecErrorf (InvalidTextAlignTypeV t))
  else inr (quoted s).

(** The [UnmarshalJSON] methods have a pointer receiver: they take the
    value that the receiver holds and return the error together with the
    value that it holds afterwards. *)

(** [func (n *NotebookType) UnmarshalJSON(b []byte) error]. *)
Definition NotebookType_UnmarshalJSON `{Json} (n : NotebookType) (b : string)
    : option CodecError * NotebookType :=
  match Unmarshal_string b with
  | inl msg => (Some (JsonError msg), n)
  | inr s =>
      if String.eqb s "DocumentType" then (None, DocumentType)
      else if String.eqb s "CollectionType" then (None, CollectionType)
      else (Some (CodecErrorf (InvalidNotebookTypeQ s)), n)
  end.

(** [func (o *Orientation) UnmarshalJSON(b []byte) error]. *)
Definition Orientation_UnmarshalJSON `{Json} (o : Orientation) (b : string)
    : option CodecError * Orientation :=
  match Unmarshal_string b with
  | inl msg => (Some (JsonError msg), o)
  | inr s =>
      if String.eqb s "portrait" then (None, Portrait)
      else if String.eqb s "landscape" then (None, Landscape)
      else (Some (CodecErrorf (InvalidNotebookTypeQ s)), o)
  end.

(** [func (f *FileType) UnmarshalJSON(b []byte) error]. *)
Definition FileType_UnmarshalJSON `{Json} (f : FileType) (b : string)
    : option CodecError * FileType :=
  match Unmarshal_string b with
  | inl msg => (Some (JsonError msg), f)
  | inr s =>
      if String.eqb s "notebook" then (None, Notebook)
      else if String.eqb s "epub" then (None, Epub)
      else if String.eqb s "pdf" then (None, Pdf)
      else (Some (CodecErrorf (InvalidFileTypeQ s)), f)
  end.

(** [func (t *TextAlign) UnmarshalJSON(b []byte) error]. *)
Definition TextAlign_UnmarshalJSON `{Json} (t : TextAlign) (b : string)
    : option CodecError * TextAlign :=
  match Unmarshal_string b with
  | inl msg => (Some (JsonError msg), t)
  | inr s =>
      if String.eqb s "left" then (None, AlignLeft)
      else if String.eqb s "justify" then (None, AlignJustify)
      else (Some (CodecErrorf (InvalidTextAlignQ s)), t)
  end.

(** The values that each enumeration names. *)
Definition valid_NotebookType (n : NotebookType) : Prop :=
  n = DocumentType \/ n = CollectionType.

Definition valid_Orientation (o : Orientation) : Prop :=
  o = Portrait \/ o = Landscape.

Definition valid_FileType (f : FileType) : Prop :=
  f = Notebook \/ f = Epub \/ f = Pdf.

Definition valid_TextAlign (t : TextAlign) : Prop :=
  t = AlignLeft \/ t = AlignJustify.

(** The JSON reader reads a quoted text back. *)
Definition reads_quoted `{Json} (s : string) : Prop :=
  Unmarshal_string (quoted s) = inr s.

(** *** Page data *)

(** An [io.Writer]: a write changes the writer and may fail with a
    message. *)
Class IoWriter : Type := {
  W : Type;
  Write : W -> string -> W * option string
}.

(** The line feed. *)
Definition newline : string := String (Ascii.ascii_of_nat 10) "".

(** [func WritePagedata(pd []string, w io.Writer) error]. *)
Fixpoint WritePagedata `{IoWriter} (pd : list string) (w : W) : option string * W :=
  match pd with
  | [] => (None, w)
  | s :: pd' =>
      match Write w (s +:+ newline) with
      | (w, Some err) => (Some err, w)
      | (w, None) => WritePagedata pd' w
      end
  end.

(** The text that [WritePagedata] writes for an entry. *)
Definition pagedata_line (s : string) : string := s +:+ newline.

(** [writes_ok lines w w']: writing the [lines] to [w] one after the other
    succeeds for each of them and leaves [w']. *)
Inductive writes_ok `{IoWriter} : list string -> W -> W -> Prop :=
| writes_ok_nil w : writes_ok [] w w
| writes_ok_cons l ls w w1 w' :
    Write w l = (w1, None) ->
    writes_ok ls w1 w' ->
    writes_ok (l :: ls) w w'.

(** [bytes.Buffer] as a writer: every write is appended and none fails. *)
Definition BytesBuffer : IoWriter :=
  {| W := string; Write := fun buf p => (buf +:+ p, None) |}.

(** Modelled from the spec: the declaration of [rmtool.Document] is not
    part of the sources at hand.  Spec, external interfaces: "a Document
    capability exposing file kind, ordered page IDs, a page->Drawing
    lookup (fails with a not-found condition for unknown IDs), display
    name, timestamps, version".  Each getter that the render package calls
    is a field; the lookup is a function of the page ID. *)
Record Document : Type := mkDocument {
  doc_ID : string;
  doc_FileType : FileType;
  doc_Pages : list string;
  doc_Drawing : string -> errors.result lines.Drawing;
  doc_Name : string;
  doc_LastModified : Z;
  doc_Version : Z
}.

(** The same document with another file kind. *)
Definition with_FileType (d : Document) (ft : FileType) : Document :=
  mkDocument (doc_ID d) ft (doc_Pages d) (doc_Drawing d) (doc_Name d)
             (doc_LastModified d) (doc_Version d).

End rmtool.

(** ** Package [pkg/render]: palette, context and brush resolution *)

Module render.

Import errors.

(** *** Collaborators *)

(** [internal/imaging]: [CreateMask] turns a sprite into a brush mask.
    The package is not part of the sources at hand; its result type and
    the function are taken as given. *)
Class Imaging : Type := {
  Mask : Type;
  CreateMask : image.RGBA -> Mask
}.

(** What a decoded PNG shows to its reader: its bounds and, for a pixel,
    the four bytes that [RGBA.Set] stores for the colour [img.At(x, y)]. *)
Record Decoded : Type := mkDecoded {
  dec_Bounds : image.Rectangle;
  dec_At : Z -> Z -> list Z
}.

(** The files below the data directory.  A path is the list of elements
    that the source hands to [filepath.Join].
    - [fs_index p]: [os.Open] fails with a message, or
      [json.Decoder.Decode] reads a value and returns the given error
      message, if any.  The value is JSON [null] ([None]), or it is an
      object whose keys come with the slices that the decoder stores for
      them: [Some l] for an array, [None] for the [nil] slice that it
      stores for a [null].  A value that is neither stores nothing and
      comes with an error: it is the object without keys.
    - [fs_png p]: [os.Open] or [png.Decode] fails with a message, or the
      image.
    The errors of these collaborators reach the caller as [External]. *)
Record FS : Type := mkFS {
  fs_index : list string
             -> string + (option (gmap string (option (list Z))) * option string);
  fs_png : list string -> string + Decoded
}.

(** What [json.Decoder.Decode] leaves in a map of type
    [map[string][]int] that it decodes into.  A JSON [null] sets the map
    to [nil].  An object is stored into the map that is there: a key of
    the object gets the slice decoded for it, and a key that the object
    does not have keeps its entry.  A key with the [nil] slice reads like
    a key that is missing, and is carried as one. *)
Definition decode_into (decoded : option (gmap string (option (list Z))))
    (m : gmap string (list Z)) : gmap string (list Z) :=
  match decoded with
  | None => ∅
  | Some object =>
      merge (fun new old => match new with Some slice => slice | None => old end)
            object m
  end.

(** *** Palette *)

Record Palette : Type := mkPalette {
  Background : color.Color;
  Highlighter_ : color.Color;
  colors : gmap lines.BrushColor color.Color
}.

Definition defaultColors : gmap lines.BrushColor color.Color :=
  <[lines.Black := color.Black]>
    (<[lines.Gray := Some (color.RGBA 150 150 150 255)]>
       (<[lines.White := color.White]> ∅)).

(** The three colours of the tablet. *)
Definition builtin_color (bc : lines.BrushColor) : Prop :=
  bc = lines.Black \/ bc = lines.Gray \/ bc = lines.White.

Definition NewPalette (bg highlighter : color.Color)
    (brushColors : gmap lines.BrushColor color.Color) : Palette :=
  {| Background := bg; colors := brushColors; Highlighter_ := highlighter |}.

(** [func (p *Palette) Color(bc lines.BrushColor) color.Color].  A key
    missing from [defaultColors] reads as the [nil] colour. *)
Definition Palette_Color (p : Palette) (bc : lines.BrushColor) : color.Color :=
  match colors p !! bc with
  | Some c => c
  | None => default None (defaultColors !! bc)
  end.

(** *** Brushes *)

Definition brushNames : gmap lines.BrushType string :=
  list_to_map [
    (lines.Ballpoint, "ballpoint");
    (lines.BallpointV5, "ballpoint");
    (lines.Pencil, "pencil");
    (lines.PencilV5, "pencil");
    (lines.MechanicalPencil, "mech-pencil");
    (lines.MechanicalPencilV5, "mech-pencil");
    (lines.Marker, "marker");
    (lines.MarkerV5, "marker");
    (lines.Fineliner, "fineliner");
    (lines.FinelinerV5, "fineliner");
    (lines.Highlighter, "highlighter");
    (lines.HighlighterV5, "highlighter");
    (lines.PaintBrush, "ballpoint");
    (lines.PaintBrushV5, "ballpoint");
    (lines.CalligraphyV5, "ballpoint")
  ].

(** The brush values that [loadBrush] builds, with the fields its
    composite literals set.  [BasePen] is the result of [loadBasePen].

    Modelled from the spec: [loadBasePen] is not part of the sources at
    hand; the spec describes its result as the generic fixed-width,
    fixed-opacity base pen "using whatever mask name was resolved", with a
    solid palette colour. *)
Inductive Brush `{Imaging} : Type :=
| Ballpoint (mask : Mask) (fill : image.Uniform) (col : color.Color)
| Pencil (mask : Mask) (fill : image.Uniform)
| MechanicalPencil (mask : Mask) (fill : image.Uniform)
| Marker (mask : Mask) (fill : image.Uniform)
| Fineliner (mask : Mask) (fill : image.Uniform) (col : color.Color)
| Highlighter (mask : Mask) (fill : image.Uniform)
| Paintbrush (fill : image.Uniform)
| BasePen (mask : Mask) (col : color.Color).

Definition loadBasePen `{Imaging} (mask : Mask) (c : color.Color) : Brush :=
  BasePen mask c.


Definition is_BasePen `{Imaging} (b : Brush) : bool :=
  match b with BasePen _ _ => true | _ => false end.

(** The brush that the [switch] of [loadBrush] builds from a mask and a
    colour, as one function of the brush kind. *)
Definition brush_of `{Imaging} (p : Palette) (bt : lines.BrushType) (mask : Mask)
    (col : color.Color) : Brush :=
  match bt with
  | lines.Ballpoint | lines.BallpointV5 => Ballpoint mask (image.NewUniform col) col
  | lines.Pencil | lines.PencilV5 => Pencil mask (image.NewUniform col)
  | lines.MechanicalPencil | lines.MechanicalPencilV5 =>
      MechanicalPencil mask (image.NewUniform col)
  | lines.Marker | lines.MarkerV5 => Marker mask (image.NewUniform col)
  | lines.Fineliner | lines.FinelinerV5 => Fineliner mask (image.NewUniform col) col
  | lines.Highlighter | lines.HighlighterV5 =>
      Highlighter mask (image.NewUniform (Highlighter_ p))
  | lines.PaintBrush | lines.PaintBrushV5 => Paintbrush (image.NewUniform col)
  | _ => loadBasePen mask col
  end.


(** The version-5 brush kind that goes with a brush kind of the older
    format; a kind without one is left as it is. *)
Definition v5_kind (bt : lines.BrushType) : lines.BrushType :=
  match bt with
  | lines.Ballpoint => lines.BallpointV5
  | lines.Pencil => lines.PencilV5
  | lines.MechanicalPencil => lines.MechanicalPencilV5
  | lines.Marker => lines.MarkerV5
  | lines.Fineliner => lines.FinelinerV5
  | lines.Highlighter => lines.HighlighterV5
  | lines.PaintBrush => lines.PaintBrushV5
  | _ => bt
  end.

(** *** Context *)

(** [sprites] is a pointer, [None] is [nil].  [spriteIndex] and
    [tplCache] are maps, the [nil] map is the empty one.  The two mutexes
    guard the caches against concurrent callers; the model runs one call
    at a time and leaves them out.  [palette] is a pointer that the
    modelled methods dereference without a check; the model carries the
    palette itself. *)
Record Context : Type := mkContext {
  DataDir : string;
  palette : Palette;
  sprites : option image.RGBA;
  spriteIndex : gmap string (list Z);
  tplCache : gmap string Decoded
}.

Definition NewContext (dataDir : string) (p : Palette) : Context :=
  {| DataDir := dataDir; palette := p;
     sprites := None; spriteIndex := ∅; tplCache := ∅ |}.

Definition DefaultContext : Context :=
  let gray := Some (color.RGBA 150 150 150 255) in
  NewContext "./data" (NewPalette color.White gray defaultColors).

Definition set_spriteIndex (c : Context) (idx : gmap string (list Z)) : Context :=
  {| DataDir := DataDir c; palette := palette c; sprites := sprites c;
     spriteIndex := idx; tplCache := tplCache c |}.

Definition set_sprites (c : Context) (s : option image.RGBA) : Context :=
  {| DataDir := DataDir c; palette := palette c; sprites := s;
     spriteIndex := spriteIndex c; tplCache := tplCache c |}.

Definition set_tplCache (c : Context) (t : gmap string Decoded) : Context :=
  {| DataDir := DataDir c; palette := palette c; sprites := sprites c;
     spriteIndex := spriteIndex c; tplCache := t |}.

(** *** Loading sprites and templates *)

Section Loading.

Context `{Imaging} (fs : FS).

(** [readPNG(path...)]. *)
Definition readPNG (path : list string) : result Decoded :=
  match fs_png fs path with
  | inl msg => Err (External msg)
  | inr img => Ok img
  end.

(** The loop of [lazyLoadSpritesheet] that copies the decoded image into
    the fresh [RGBA]: [x] and [y] run from [0] to the width and height
    of the sprite sheet. *)
Definition copy_pixels (img : Decoded) (p : image.RGBA) : image.RGBA :=
  foldl (fun p x =>
           foldl (fun p y => image.Set_ p x y (dec_At img x y))
                 p (seqZ 0 (image.Dy (image.Bounds p))))
        p (seqZ 0 (image.Dx (image.Bounds p))).

(** [func (c *Context) lazyLoadSpritesheet() error].  The index is
    decoded into [&c.spriteIndex], the map that is there. *)
Definition lazyLoadSpritesheet (c : Context) : option error * Context :=
  match sprites c with
  | Some _ => (None, c)
  | None =>
      match fs_index fs [DataDir c; "sprites.json"] with
      | inl msg => (Some (External msg), c)
      | inr (decoded, derr) =>
          let c := set_spriteIndex c (decode_into decoded (spriteIndex c)) in
          match derr with
          | Some msg => (Some (External msg), c)
          | None =>
              match readPNG [DataDir c; "sprites.png"] with
              | Err err => (Some err, c)
              | Ok img =>
                  let s := copy_pixels img (image.NewRGBA (dec_Bounds img)) in
                  (None, set_sprites c (Some s))
              end
          end
      end
  end.

(** [func (c *Context) loadBrushMask(name string) (image.Image, error)].
    After a successful [lazyLoadSpritesheet] the sheet is there; the
    branch for a missing sheet stands for the [nil] dereference of
    [c.sprites.Bounds()] and is never taken (see
    [lazyLoadSpritesheet_ok_loaded]). *)
Definition loadBrushMask (c : Context) (name : string)
    : result image.RGBA * Context :=
  match lazyLoadSpritesheet c with
  | (Some err, c) => (Err err, c)
  | (None, c) =>
      match spriteIndex c !! name with
      | None => (Err (Errorf (NoSpriteImage name)), c)
      | Some idx =>
          match idx with
          | [x0; y0; x1; y1] =>
              let rect := image.Rect x0 y0 x1 y1 in
              match sprites c with
              | None => (Err (External "nil pointer dereference"), c)
              | Some sheet =>
                  if (image.Dx rect >? image.Dx (image.Bounds sheet))
                     || (image.Dy rect >? image.Dy (image.Bounds sheet))
                  then (Err (Errorf SpriteBoundsNotWithin), c)
                  else (Ok (image.SubImage sheet rect), c)
              end
          | _ => (Err (Errorf (InvalidSpriteEntry name)), c)
          end
      end
  end.

(** [func (c *Context) loadBrush(bt, bc) (Brush, error)].  The warning
    that the last case logs goes to the process log and is not part of
    the result. *)
Definition loadBrush (c : Context) (bt : lines.BrushType)
    (bc : lines.BrushColor) : result Brush * Context :=
  let col := Palette_Color (palette c) bc in
  match col with
  | None => (Err (Errorf (InvalidColor bc)), c)
  | Some _ =>
      let name := default "" (brushNames !! bt) in
      if String.eqb name ""
      then (Err (Errorf (UnsupportedBrushType bt)), c)
      else
        match loadBrushMask c name with
        | (Err err, c) => (Err err, c)
        | (Ok img, c) =>
            let mask := CreateMask img in
            let b :=
              match bt with
              | lines.Ballpoint | lines.BallpointV5 =>
                  Ballpoint mask (image.NewUniform col) col
              | lines.Pencil | lines.PencilV5 =>
                  Pencil mask (image.NewUniform col)
              | lines.MechanicalPencil | lines.MechanicalPencilV5 =>
                  MechanicalPencil mask (image.NewUniform col)
              | lines.Marker | lines.MarkerV5 =>
                  Marker mask (image.NewUniform col)
              | lines.Fineliner | lines.FinelinerV5 =>
                  Fineliner mask (image.NewUniform col) col
              | lines.Highlighter | lines.HighlighterV5 =>
                  Highlighter mask (image.NewUniform (Highlighter_ (palette c)))
              | lines.PaintBrush | lines.PaintBrushV5 =>
                  Paintbrush (image.NewUniform col)
              | _ => loadBasePen mask col
              end in
            (Ok b, c)
        end
  end.

(** [func (c *Context) loadTemplate(name string) (image.Image, error)]. *)
Definition loadTemplate (c : Context) (name : string)
    : result Decoded * Context :=
  match tplCache c !! name with
  | Some cached => (Ok cached, c)
  | None =>
      match readPNG [DataDir c; "templates"; name +:+ ".png"] with
      | Err err => (Err err, c)
      | Ok img => (Ok img, set_tplCache c (<[name := img]> (tplCache c)))
      end
  end.

End Loading.

(** What the copy loop of [lazyLoadSpritesheet] keeps for an image of
    [width] by [height] pixels: the bounds, the stride and the length of
    the pixel buffer. *)
Definition sheet_shape (img : Decoded) (width height : Z) (p : image.RGBA) : Prop :=
  image.Rect_ p = dec_Bounds img
  /\ image.Stride p = 4 * width
  /\ length (image.Pix p) = Z.to_nat (4 * width * height).

(** The pixel [t] of the sheet [p], if it is a point of the image, holds
    the colour that the image has there. *)
Definition settled (img : Decoded) (width height : Z) (p : image.RGBA)
    (t : Z * Z) : Prop :=
  0 <= t.1 < width -> 0 <= t.2 < height ->
  image.pixel_is p t.1 t.2 (dec_At img t.1 t.2).

(** *** PDF assembly *)

Definition tsFormat : string := "2006-01-02 15:04:05".
Definition defaultPageSize : string := "A4".

(** [float64] arithmetic is not interpreted: the type, the constant [0.0]
    and the subtraction are taken as given. *)
Class Float64 : Type := {
  float64 : Type;
  f_zero : float64;
  f_sub : float64 -> float64 -> float64
}.

(** A [time.Time] after [UTC()] or [Local()]. *)
Inductive Time : Type :=
| UTC (t : Z)
| Local (t : Z).

(** [gofpdf.ImageOptions]. *)
Record ImageOptions_ : Type := mkImageOptions {
  ImageType : string;
  ReadDpi : bool
}.

(** The PDF under construction, [*gofpdf.Fpdf], is the sequence of the
    calls made on it so far, oldest first.  [SetFooterFunc] carries what
    its closure reads from the document when a page is closed: name,
    version and the local modification time, printed as
    ["%d / {totalPages}  |  %v (v%d, %v)"]. *)
Inductive FpdfCall `{Float64} : Type :=
| New (orientation sizeUnit pageSize fontDir : string)
| AliasNbPages (alias : string)
| SetFont (family style : string) (size : Z)
| SetTextColor (r g b : Z)
| SetProducer (producer : string) (isUTF8 : bool)
| SetTitle (title : string) (isUTF8 : bool)
| SetModificationDate (t : Time)
| SetCreationDate (t : Time)
| SetFooterFunc (name : string) (version : Z) (modified : Time)
| AddPage
| RegisterImageOptionsReader (id : string) (opts : ImageOptions_) (buf : list Z)
| ImageOptions (id : string) (x y w h : float64) (flow : bool)
    (opts : ImageOptions_) (link : Z) (linkStr : string).

Definition Fpdf `{Float64} : Type := list FpdfCall.

(** The bytes that an [io.Writer] has received so far. *)
Definition Writer : Type := list Z.

(** The library [gofpdf] and [uuid]: the getters of the PDF, its
    serialisation to a writer, and the text of the [n]-th identifier
    drawn from [uuid.New]. *)
Class Gofpdf `{Float64} : Type := {
  GetPageSize : Fpdf -> float64 * float64;
  GetMargins : Fpdf -> float64 * float64 * float64 * float64;
  Output : Fpdf -> Writer -> option error * Writer;
  uuid_String : nat -> string
}.

(** The calls to collaborators that a render makes, oldest first. *)
Inductive Call : Type :=
| CallDrawing (pageID : string)
| CallRenderPNG (d : lines.Drawing)
| CallOverlayPdf
| CallOutput.

(** What a render call can change besides the PDF it builds: the caches
    of the context, the number of identifiers drawn, and the calls made. *)
Record St : Type := mkSt {
  st_ctx : Context;
  st_uuids : nat;
  st_calls : list Call
}.

Definition st_call (s : St) (k : Call) : St :=
  mkSt (st_ctx s) (st_uuids s) (st_calls s ++ [k]).

Definition st_set_ctx (s : St) (c : Context) : St :=
  mkSt c (st_uuids s) (st_calls s).

Definition st_next_uuid (s : St) : St :=
  mkSt (st_ctx s) (S (st_uuids s)) (st_calls s).

(** The page renderer [renderPNG] and the overlay path [overlayPdf] are
    functions of this package whose code is not part of the sources at
    hand; the document assembly takes them as given.  [renderPNG] returns
    the bytes it wrote to its buffer. *)
Class PageRenderer `{Float64} : Type := {
  renderPNG : Context -> lines.Drawing -> bool -> result (list Z) * Context;
  overlayPdf : St -> rmtool.Document -> Fpdf -> option error * St * Fpdf
}.

Section Pdf.

Context `{Gofpdf} `{!PageRenderer}.

(** [func setupPdf(pageSize string, d *rmtool.Document) *gofpdf.Fpdf];
    [None] is the [nil] document. *)
Definition setupPdf (pageSize : string) (d : option rmtool.Document) : Fpdf :=
  let orientation := "P" in
  let sizeUnit := "pt" in
  let fontDir := "" in
  let pdf :=
    [ New orientation sizeUnit pageSize fontDir;
      AliasNbPages "{totalPages}";
      SetFont "helvetica" "" 8;
      SetTextColor 127 127 127;
      SetProducer "rmtool" true ] in
  match d with
  | None => pdf
  | Some d =>
      let modified := UTC (rmtool.doc_LastModified d) in
      pdf ++ [ SetTitle (rmtool.doc_Name d) true;
               SetModificationDate modified;
               SetCreationDate modified;
               SetFooterFunc (rmtool.doc_Name d) (rmtool.doc_Version d)
                             (Local (rmtool.doc_LastModified d)) ]
  end.

(** [func drawingToPdf(c *Context, pdf *gofpdf.Fpdf, d *lines.Drawing) error]. *)
Definition drawingToPdf (s : St) (pdf : Fpdf) (d : lines.Drawing)
    : option error * St * Fpdf :=
  let id := uuid_String (st_uuids s) in
  let s := st_next_uuid s in
  let opts := {| ImageType := "PNG"; ReadDpi := true |} in
  let s := st_call s (CallRenderPNG d) in
  match renderPNG (st_ctx s) d false with
  | (Err err, c) => (Some err, st_set_ctx s c, pdf)
  | (Ok buf, c) =>
      let s := st_set_ctx s c in
      let pdf := pdf ++ [RegisterImageOptionsReader id opts buf] in
      let '(wPage, _) := GetPageSize pdf in
      let '(mleft, _, mright, _) := GetMargins pdf in
      let w := f_sub (f_sub wPage mleft) mright in
      let x := f_zero in
      let y := f_zero in
      let h := f_zero in
      let flow := false in
      let link := 0 in
      let linkStr := "" in
      (None, s, pdf ++ [ImageOptions id x y w h flow opts link linkStr])
  end.

(** [func doRenderPdfPage(c, pdf, doc, pageID, i) error]. *)
Definition doRenderPdfPage (s : St) (pdf : Fpdf) (doc : rmtool.Document)
    (pageID : string) (i : Z) : option error * St * Fpdf :=
  let s := st_call s (CallDrawing pageID) in
  match rmtool.doc_Drawing doc pageID with
  | Err err => (Some err, s, pdf)
  | Ok d => drawingToPdf s (pdf ++ [AddPage]) d
  end.

(** The loop of [drawingsPdf] over [d.Pages()], from index [i] on. *)
Fixpoint drawingsPdf_loop (s : St) (pdf : Fpdf) (d : rmtool.Document)
    (i : Z) (pages : list string) : option error * St * Fpdf :=
  match pages with
  | [] => (None, s, pdf)
  | pageID :: pages' =>
      match doRenderPdfPage s pdf d pageID i with
      | (Some err, s, pdf) => (Some err, s, pdf)
      | (None, s, pdf) => drawingsPdf_loop s pdf d (i + 1) pages'
      end
  end.

(** [func drawingsPdf(c, pdf, d) error]. *)
Definition drawingsPdf (s : St) (pdf : Fpdf) (d : rmtool.Document)
    : option error * St * Fpdf :=
  drawingsPdf_loop s pdf d 0 (rmtool.doc_Pages d).

(** The part of [renderPdf] between the file-type gate and the output:
    the PDF is set up and every page is put on it. *)
Definition renderPdf_pages (s : St) (d : rmtool.Document)
    : option error * St * Fpdf :=
  let pdf := setupPdf defaultPageSize (Some d) in
  if rmtool.doc_FileType d =? rmtool.Pdf
  then overlayPdf (st_call s CallOverlayPdf) d pdf
  else drawingsPdf s pdf d.

(** [func renderPdf(c *Context, d *rmtool.Document, w io.Writer) error]. *)
Definition renderPdf (s : St) (d : rmtool.Document) (w : Writer)
    : option error * St * Writer :=
  if rmtool.doc_FileType d =? rmtool.Epub
  then (Some (Errorf (RenderPdfNotSupported (rmtool.doc_FileType d))), s, w)
  else
    match renderPdf_pages s d with
    | (Some err, s, _) => (Some err, s, w)
    | (None, s, pdf) =>
        let '(err, w) := Output pdf w in
        (err, st_call s CallOutput, w)
    end.

(** [func PdfPage(c, d, pageID, w) error]. *)
Definition PdfPage (s : St) (d : rmtool.Document) (pageID : string)
    (w : Writer) : option error * St * Writer :=
  let pdf := setupPdf defaultPageSize None in
  match doRenderPdfPage s pdf d pageID 0 with
  | (Some err, s, _) => (Some err, s, w)
  | (None, s, pdf) =>
      let '(err, w) := Output pdf w in
      (err, st_call s CallOutput, w)
  end.

(** [func (c *Context) Pdf(doc, w) error]. *)
Definition Context_Pdf (s : St) (doc : rmtool.Document) (w : Writer)
    : option error * St * Writer :=
  renderPdf s doc w.

(** [func Pdf(d, w) error]: a render with a fresh default context. *)
Definition Pdf (s : St) (d : rmtool.Document) (w : Writer)
    : option error * St * Writer :=
  renderPdf (st_set_ctx s DefaultContext) d w.

(** [pages_ok d i pages s pdf s' pdf']: putting the pages [pages],
    numbered from [i], on [pdf] one after the other succeeds for each
    of them and leads from [s] and [pdf] to [s'] and [pdf']. *)
Inductive pages_ok (d : rmtool.Document)
  : Z -> list string -> St -> Fpdf -> St -> Fpdf -> Prop :=
| pages_ok_nil i s pdf : pages_ok d i [] s pdf s pdf
| pages_ok_cons i pageID pages s pdf s1 pdf1 s' pdf' :
    doRenderPdfPage s pdf d pageID i = (None, s1, pdf1) ->
    pages_ok d (i + 1) pages s1 pdf1 s' pdf' ->
    pages_ok d i (pageID :: pages) s pdf s' pdf'.

(** The calls of [AddPage] made on a PDF so far. *)
Definition is_AddPage (k : FpdfCall) : bool :=
  match k with AddPage => true | _ => false end.

Definition page_count (pdf : Fpdf) : nat := length (List.filter is_AddPage pdf).

(** The calls that set the metadata of a document: title, dates and
    footer. *)
Definition is_metadata (k : FpdfCall) : bool :=
  match k with
  | SetTitle _ _ | SetModificationDate _ | SetCreationDate _
  | SetFooterFunc _ _ _ => true
  | _ => false
  end.

(** The images that a PDF registers, by identifier, oldest first. *)
Definition registered_ids (pdf : Fpdf) : list string :=
  omap (fun k => match k with
                 | RegisterImageOptionsReader id _ _ => Some id
                 | _ => None
                 end) pdf.


End Pdf.

(** *** The page renderer *)

(** What the brushes and the PNG encoder do with pixels is floating-point
    geometry and compression outside the sources at hand: the canvas, the
    compositing of one stroke with its brush, and the encoder are taken as
    given. *)
Class Compositing `{Imaging} : Type := {
  Canvas : Type;
  NewCanvas : color.Color -> Canvas;
  RenderStroke : Brush -> Canvas -> lines.Stroke -> Canvas;
  EncodePNG : Canvas -> result (list Z)
}.

Module page.
Section Page.

Context `{Compositing} (fs : FS).

(** Modelled from the spec: the stroke loop of the page renderer is not
    part of the sources at hand.  Spec, PageRenderer: "within a layer
    iterate Strokes in stored order; for each stroke resolve its Brush
    once (errors abort the whole page - a page never partially
    renders); invoke the brush's compositing routine over the stroke's
    Segments". *)
Fixpoint renderStrokes (c : Context) (cv : Canvas) (ss : list lines.Stroke)
    : result Canvas * Context :=
  match ss with
  | [] => (Ok cv, c)
  | s :: ss' =>
      match loadBrush fs c (lines.stroke_BrushType s) (lines.stroke_BrushColor s) with
      | (Err err, c) => (Err err, c)
      | (Ok b, c) => renderStrokes c (RenderStroke b cv s) ss'
      end
  end.

(** Modelled from the spec: the layer loop of the page renderer is not
    part of the sources at hand.  Spec, PageRenderer: "iterate Layers
    in stored order (...) every layer always paints". *)
Fixpoint renderLayers (c : Context) (cv : Canvas) (ls : list lines.Layer)
    : result Canvas * Context :=
  match ls with
  | [] => (Ok cv, c)
  | l :: ls' =>
      match renderStrokes c cv (lines.layer_Strokes l) with
      | (Err err, c) => (Err err, c)
      | (Ok cv, c) => renderLayers c cv ls'
      end
  end.

(** Modelled from the spec: [renderPNG] is not part of the sources at
    hand; only its call in [drawingToPdf] is.  Spec, PageRenderer:
    "allocate a canvas pre-filled with the Palette background; iterate
    Layers in stored order (...). Output is a lossless-encoded still
    image delivered to a caller-supplied sink".  The spec says nothing
    about the flag that [drawingToPdf] passes as [false]; it is taken
    and not read. *)
Definition renderPNG (c : Context) (d : lines.Drawing) (flag : bool)
    : result (list Z) * Context :=
  match renderLayers c (NewCanvas (Background (palette c)))
                     (lines.drawing_Layers d) with
  | (Err err, c) => (Err err, c)
  | (Ok cv, c) => (EncodePNG cv, c)
  end.

End Page.
End page.

End render.

(** ** Package [internal/logging] *)

Module logging.

(** Where a logger writes: to [ioutil.Discard] or to [os.Stderr]. *)
Inductive Sink : Type := Discard | Stderr.

(** [type Level int], [LevelDebug Level = iota]. *)
Definition Level := Z.
Definition LevelDebug : Level := 0.
Definition LevelInfo : Level := 1.
Definition LevelWarning : Level := 2.
Definition LevelError : Level := 3.
Definition LevelNone : Level := 4.

(** The four package-level loggers, each with its sink.  The prefixes
    ["D "], ["I "], ["W "], ["E "] and the flags are fixed by [init]. *)
Record Loggers : Type := mkLoggers {
  debug : Sink;
  info : Sink;
  warning : Sink;
  error : Sink
}.

(** [func SetLevel(l Level)]: a level outside the five cases changes
    nothing. *)
Definition SetLevel (l : Level) (g : Loggers) : Loggers :=
  if l =? LevelDebug then mkLoggers Stderr Stderr Stderr Stderr
  else if l =? LevelInfo then mkLoggers Discard Stderr Stderr Stderr
  else if l =? LevelWarning then mkLoggers Discard Discard Stderr Stderr
  else if l =? LevelError then mkLoggers Discard Discard Discard Stderr
  else if l =? LevelNone then mkLoggers Discard Discard Discard Discard
  else g.

(** [func init()]: all four loggers discard, then the level is set to
    [LevelWarning]. *)
Definition init : Loggers :=
  SetLevel LevelWarning (mkLoggers Discard Discard Discard Discard).

(** A line on standard error: the prefix of the logger and the message;
    the date and the time that the logger adds are left out. *)
Record Line : Type := mkLine { line_prefix : string; line_msg : string }.

(** [logger.Printf(msg, v...)] on a logger with the given sink and
    prefix; [msg] is the formatted text. *)
Definition Printf (sink : Sink) (prefix msg : string) (stderr : list Line)
    : list Line :=
  match sink with
  | Discard => stderr
  | Stderr => stderr ++ [mkLine prefix msg]
  end.

(** [func Debug], [func Info], [func Warning], [func Error]. *)
Definition Debug (g : Loggers) (msg : string) (stderr : list Line) : list Line :=
  Printf (debug g) "D " msg stderr.

Definition Info (g : Loggers) (msg : string) (stderr : list Line) : list Line :=
  Printf (info g) "I " msg stderr.

Definition Warning (g : Loggers) (msg : string) (stderr : list Line) : list Line :=
  Printf (warning g) "W " msg stderr.

Definition Error (g : Loggers) (msg : string) (stderr : list Line) : list Line :=
  Printf (error g) "E " msg stderr.

(** The function that logs at a level from [LevelDebug] to [LevelError]. *)
Definition log_at (m : Level) (g : Loggers) (msg : string) (stderr : list Line)
    : list Line :=
  if m =? LevelDebug then Debug g msg stderr
  else if m =? LevelInfo then Info g msg stderr
  else if m =? LevelWarning then Warning g msg stderr
  else Error g msg stderr.

End logging.

(** ** Sample data

    Small concrete collaborators, files and documents on which the
    statements below are run. *)

Module samples.

Import errors render.

Definition imaging : Imaging :=
  {| Mask := image.RGBA; CreateMask := fun img => img |}.

(** A sprite sheet of four by four pixels. *)
Definition sheet : Decoded :=
  mkDecoded (image.Rect 0 0 4 4) (fun x y => [x; y; 0; 255]).

Definition index : gmap string (list Z) :=
  <["ballpoint" := [0; 0; 2; 2]]>
    (<["highlighter" := [2; 0; 4; 2]]>
       (<["pencil" := [0; 2; 2; 4]]> ∅)).

(** The sprite for the ballpoint is no larger than the sheet but reaches
    beyond its lower right corner. *)
Definition index_shifted : gmap string (list Z) :=
  <["ballpoint" := [2; 2; 6; 6]]> ∅.

(** The sprite for the ballpoint is wider than the sheet. *)
Definition index_wide : gmap string (list Z) :=
  <["ballpoint" := [0; 0; 5; 2]]> ∅.

(** The sprite index as a JSON object, every key with its array. *)
Definition index_file (m : gmap string (list Z))
    : option (gmap string (option (list Z))) :=
  Some (Some <$> m).

Definition fs_ok : FS :=
  mkFS (fun _ => inr (index_file index, None)) (fun _ => inr sheet).

Definition fs_shifted : FS :=
  mkFS (fun _ => inr (index_file index_shifted, None)) (fun _ => inr sheet).

Definition fs_wide : FS :=
  mkFS (fun _ => inr (index_file index_wide, None)) (fun _ => inr sheet).

(** A palette whose mapping has no entry at all, and one that maps black
    to red. *)
Definition palette_empty : Palette :=
  NewPalette color.White (Some (color.RGBA 255 255 0 255)) ∅.

Definition red : color.Color := Some (color.RGBA 255 0 0 255).

Definition palette_red : Palette :=
  NewPalette color.White (Some (color.RGBA 255 255 0 255))
             (<[lines.Black := red]> ∅).

Definition ctx_empty : Context := NewContext "data" palette_empty.
Definition ctx_red : Context := NewContext "data" palette_red.

Definition compositing : @Compositing imaging :=
  {| Canvas := list Z;
     NewCanvas := fun _ => [];
     RenderStroke := fun _ cv s => cv ++ [lines.stroke_BrushSize s];
     EncodePNG := fun cv => Ok cv |}.

Definition float : Float64 :=
  {| float64 := Z; f_zero := 0; f_sub := Z.sub |}.

Definition gofpdf : @Gofpdf float :=
  @Build_Gofpdf float
    (fun _ => (595, 842) : Z * Z)
    (fun _ => (28, 28, 28, 28) : Z * Z * Z * Z)
    (fun pdf w => (None, w ++ [Z.of_nat (length pdf)]))
    (fun _ => "0").

Definition renderer : @PageRenderer float :=
  {| renderPNG := @page.renderPNG imaging compositing fs_ok;
     overlayPdf := fun s _ pdf => (None, s, pdf) |}.

Definition stroke (bt : lines.BrushType) (bc : lines.BrushColor) : lines.Stroke :=
  lines.mkStroke bt bc 2 [lines.mkSegment 0 0 1 0 0 2; lines.mkSegment 5 5 1 0 0 2].

Definition drawing_ok : lines.Drawing :=
  lines.mkDrawing [lines.mkLayer [stroke lines.Ballpoint lines.Black;
                                  stroke lines.Highlighter lines.Gray]].

(** A drawing with a stroke in a colour that no palette knows. *)
Definition drawing_bad : lines.Drawing :=
  lines.mkDrawing [lines.mkLayer [stroke lines.Ballpoint (lines.OtherColor 0)]].

Definition drawings (pageID : string) : result lines.Drawing :=
  if String.eqb pageID "p1" then Ok drawing_ok
  else if String.eqb pageID "p2" then Ok drawing_ok
  else if String.eqb pageID "bad" then Ok drawing_bad
  else Err (External "no such page").

Definition document (ft : rmtool.FileType) (pages : list string) : rmtool.Document :=
  rmtool.mkDocument "doc" ft pages drawings "Sample" 1600000000 3.

Definition st0 : St := mkSt DefaultContext 0 [].

Definition content (pageCount cover : Z) (pages : list string) : rmtool.Content :=
  rmtool.mkContent false rmtool.Notebook rmtool.Portrait pageCount pages cover
                   "" rmtool.LineHeightDefault 100 rmtool.AlignLeft
                   rmtool.NewTransform.

(** A JSON reader that knows plain quoted texts only. *)
Definition json : rmtool.Json :=
  {| rmtool.Unmarshal_string := fun b =>
       let n := String.length b in
       match String.get 0 b, String.get (n - 1) b with
       | Some c, Some c' =>
           if (2 <=? n)%nat && Ascii.eqb c (Ascii.ascii_of_nat 34)
              && Ascii.eqb c' (Ascii.ascii_of_nat 34)
           then inr (String.substring 1 (n - 2) b)
           else inl "invalid character"%string
       | _, _ => inl "unexpected end of JSON input"%string
       end |}.

(** A writer that takes sixteen bytes and then fails. *)
Definition small_writer : rmtool.IoWriter :=
  {| rmtool.W := string;
     rmtool.Write := fun w p =>
       if (String.length (w +:+ p) <=? 16)%nat then (w +:+ p, None)
       else (w, Some "short write"%string) |}.

(** An index whose entry for the ballpoint lies beside the sheet, and one
    that knows the pencil only. *)
Definition index_outside : gmap string (list Z) :=
  <["ballpoint" := [10; 10; 12; 12]]> ∅.

Definition fs_outside : render.FS :=
  render.mkFS (fun _ => inr (index_file index_outside, None)) (fun _ => inr sheet).

Definition index_pencil : gmap string (list Z) :=
  <["pencil" := [0; 2; 2; 4]]> ∅.


Definition fs_pencil : render.FS :=
  render.mkFS (fun _ => inr (index_file index_pencil, None)) (fun _ => inr sheet).

(** No file can be read. *)
Definition fs_none : render.FS :=
  render.mkFS (fun _ => inl "no such file"%string) (fun _ => inl "no such file"%string).

End samples.

(** * Properties *)

Import errors.

(** ** [Content.Validate] *)

Section Validate.

Import rmtool.

Lemma Validate_None_iff (c : Content) :
  Validate c = None <->
  valid_file_type c /\ valid_orientation c /\ PageCount c = len (Pages c)
  /\ (cover_page_unset c \/ cover_page_existing c) /\ valid_text_alignment c.
Proof.
  unfold Validate, valid_file_type, valid_orientation, valid_text_alignment,
    cover_page_unset, cover_page_existing,
    Notebook, Pdf, Epub, Portrait, Landscape, AlignLeft, AlignJustify,
    defaultCoverPage.
  destruct (FileType_ c =? 0) eqn:F0, (FileType_ c =? 2) eqn:F2,
    (FileType_ c =? 1) eqn:F1; cbn [negb orb andb];
    try (split; [discriminate | lia]);
    destruct (Orientation_ c =? 0) eqn:O0, (Orientation_ c =? 1) eqn:O1;
    cbn [negb orb andb]; try (split; [discriminate | lia]);
    destruct (PageCount c =? len (Pages c)) eqn:P;
    cbn [negb orb andb]; try (split; [discriminate | lia]);
    destruct (CoverPageNumber c =? -1) eqn:C0,
      (CoverPageNumber c <? 1) eqn:C1,
      (CoverPageNumber c >? PageCount c) eqn:C2;
    cbn [negb orb andb]; try (split; [discriminate | lia]);
    destruct (TextAlignment c =? 0) eqn:T0, (TextAlignment c =? 1) eqn:T1;
    cbn [negb orb andb]; try (split; [discriminate | lia]);
    (split; [intros _ | reflexivity]); lia.
Qed.

Lemma Validate_error_is_ValidationError (c : Content) (e : error) :
  Validate c = Some e -> exists msg, e = ValidationError msg.
Proof.
  unfold Validate, NewValidationError.
  repeat match goal with
         | |- context [if ?b then _ else _] => destruct b
         end; intros [= <-]; eauto.
Qed.

Lemma Validate_invalid (c : Content) :
  ~ (valid_file_type c /\ valid_orientation c /\ PageCount c = len (Pages c)
     /\ (cover_page_unset c \/ cover_page_existing c) /\ valid_text_alignment c) ->
  exists msg, Validate c = Some (ValidationError msg).
Proof.
  intros Hn. destruct (Validate c) as [e|] eqn:E.
  - destruct (Validate_error_is_ValidationError c e E) as [msg ->]. eauto.
  - apply Validate_None_iff in E. contradiction.
Qed.

(** C4.  [Content.Validate] returns a ValidationError whenever the page
    count differs from the number of page IDs, and whenever the cover
    page number is neither the unset sentinel [-1] nor the number of an
    existing page; so in particular for cover page 5 with page count 3.
    It returns no error for a Content with a valid file kind, orientation
    and text alignment, a matching page count, and a cover page that is
    unset or the number of an existing page. *)
Theorem Content_Validate_spec (c : Content) :
  (PageCount c <> len (Pages c) ->
   exists msg, Validate c = Some (ValidationError msg))
  /\ (~ cover_page_unset c -> ~ cover_page_existing c ->
      exists msg, Validate c = Some (ValidationError msg))
  /\ (CoverPageNumber c = 5 -> PageCount c = 3 ->
      exists msg, Validate c = Some (ValidationError msg))
  /\ (valid_file_type c -> valid_orientation c -> valid_text_alignment c ->
      PageCount c = len (Pages c) ->
      cover_page_unset c \/ cover_page_existing c ->
      Validate c = None).
Proof.
  repeat split.
  - intros Hne. apply Validate_invalid. tauto.
  - intros Hu He. apply Validate_invalid. tauto.
  - intros H5 H3. apply Validate_invalid.
    unfold cover_page_unset, cover_page_existing, defaultCoverPage.
    rewrite H5, H3. lia.
  - intros. apply Validate_None_iff. tauto.
Qed.

Lemma Content_Validate_spec_witness :
  (exists msg, Validate (samples.content 3 (-1) ["a"; "b"])
               = Some (ValidationError msg))
  /\ (exists msg, Validate (samples.content 3 0 ["a"; "b"; "c"])
                  = Some (ValidationError msg))
  /\ (exists msg, Validate (samples.content 3 5 ["a"; "b"; "c"])
                  = Some (ValidationError msg))
  /\ Validate (samples.content 3 3 ["a"; "b"; "c"]) = None.
Proof.
  split; [| split; [| split]].
  - apply (proj1 (Content_Validate_spec _)). vm_compute. discriminate.
  - apply (proj1 (proj2 (Content_Validate_spec _)));
      unfold cover_page_unset, cover_page_existing, defaultCoverPage;
      simpl; lia.
  - apply (proj1 (proj2 (proj2 (Content_Validate_spec _)))); reflexivity.
  - apply (proj2 (proj2 (proj2 (Content_Validate_spec _))));
      unfold valid_file_type, valid_orientation, valid_text_alignment,
        cover_page_unset, cover_page_existing, defaultCoverPage; simpl;
      first [reflexivity | (left; reflexivity) | (right; lia)].
Defined.

End Validate.

(** ** The palette *)

Section PaletteFacts.

Import render.

Lemma defaultColors_lookup (bc : lines.BrushColor) :
  defaultColors !! bc =
  match bc with
  | lines.Black => Some color.Black
  | lines.Gray => Some (Some (color.RGBA 150 150 150 255))
  | lines.White => Some color.White
  | lines.OtherColor _ => None
  end.
Proof. unfold defaultColors. destruct bc; by simplify_map_eq. Qed.

Lemma builtin_color_default (bc : lines.BrushColor) :
  builtin_color bc <-> exists v, defaultColors !! bc = Some (Some v).
Proof.
  rewrite defaultColors_lookup. unfold builtin_color. split.
  - intros [-> | [-> | ->]]; eauto.
  - destruct bc; intros [v Hv]; auto. discriminate.
Qed.

Lemma Palette_Color_present (p : Palette) (bc : lines.BrushColor) (v : color.Color) :
  colors p !! bc = Some v -> Palette_Color p bc = v.
Proof. unfold Palette_Color. by intros ->. Qed.

Lemma Palette_Color_absent (p : Palette) (bc : lines.BrushColor) :
  colors p !! bc = None -> Palette_Color p bc = default None (defaultColors !! bc).
Proof. unfold Palette_Color. by intros ->. Qed.

(** C10.  Entries of the caller's mapping come first: for every brush
    colour that the mapping has, black, gray and white included,
    [Palette.Color] returns the caller's value; the built-in default is
    what it returns only when the mapping has no entry for the colour. *)
Theorem Palette_Color_caller_first (p : Palette) (bc : lines.BrushColor) :
  (forall v, colors p !! bc = Some v -> Palette_Color p bc = v)
  /\ (colors p !! bc = None ->
      Palette_Color p bc = default None (defaultColors !! bc)).
Proof.
  split; [apply Palette_Color_present | apply Palette_Color_absent].
Qed.

Lemma Palette_Color_caller_first_witness :
  Palette_Color samples.palette_red lines.Black = samples.red
  /\ Palette_Color samples.palette_red lines.Gray
     = Some (color.RGBA 150 150 150 255).
Proof.
  split.
  - apply (proj1 (Palette_Color_caller_first samples.palette_red lines.Black)).
    reflexivity.
  - apply (proj2 (Palette_Color_caller_first samples.palette_red lines.Gray)).
    reflexivity.
Defined.

End PaletteFacts.

(** ** The sprite sheet and the brush masks *)

Section SpriteFacts.

Import render.

Context (fs : FS).

Lemma lazyLoadSpritesheet_loaded (c : Context) :
  is_Some (sprites c) -> lazyLoadSpritesheet fs c = (None, c).
Proof. intros [s Hs]. unfold lazyLoadSpritesheet. by rewrite Hs. Qed.

(** Either the sheet is there afterwards, or the load failed with an
    error of the file system and the sheet is still missing. *)
Lemma lazyLoadSpritesheet_cases (c c' : Context) (oe : option error) :
  lazyLoadSpritesheet fs c = (oe, c') ->
  (oe = None /\ is_Some (sprites c'))
  \/ (exists msg, oe = Some (External msg)) /\ sprites c' = None.
Proof.
  unfold lazyLoadSpritesheet, readPNG.
  destruct (sprites c) as [s|] eqn:Hs.
  { intros [= <- <-]. left. rewrite Hs. eauto. }
  destruct (fs_index fs _) as [msg | [stored [msg|]]].
  - intros [= <- <-]. right. eauto.
  - intros [= <- <-]. right. eauto.
  - cbn [DataDir set_spriteIndex].
    destruct (fs_png fs _) as [msg | img]; intros [= <- <-].
    + right. eauto.
    + left. cbn. eauto.
Qed.

Lemma lazyLoadSpritesheet_ok_loaded (c c' : Context) :
  lazyLoadSpritesheet fs c = (None, c') -> is_Some (sprites c').
Proof.
  intros E. destruct (lazyLoadSpritesheet_cases _ _ _ E) as [[_ ?] | [[? ?] _]];
    [done | discriminate].
Qed.

Lemma lazyLoadSpritesheet_palette (c c' : Context) (oe : option error) :
  lazyLoadSpritesheet fs c = (oe, c') ->
  palette c' = palette c /\ DataDir c' = DataDir c /\ tplCache c' = tplCache c.
Proof.
  unfold lazyLoadSpritesheet, readPNG.
  destruct (sprites c); [by intros [= <- <-] |].
  destruct (fs_index fs _) as [msg | [stored [msg|]]];
    try by intros [= <- <-].
  cbn [DataDir set_spriteIndex].
  destruct (fs_png fs _); by intros [= <- <-].
Qed.

(** Decoding the same value into the map a second time changes nothing. *)
Lemma decode_into_again (decoded : option (gmap string (option (list Z))))
    (m : gmap string (list Z)) :
  render.decode_into decoded (render.decode_into decoded m)
  = render.decode_into decoded m.
Proof.
  destruct decoded as [object|]; [| done]. cbn.
  apply map_eq. intros k. rewrite !lookup_merge.
  by destruct (object !! k) as [[slice|]|], (m !! k).
Qed.

(** A second load right after a first one changes nothing and ends the
    same way. *)
Lemma lazyLoadSpritesheet_again (c c' : Context) (oe : option error) :
  lazyLoadSpritesheet fs c = (oe, c') -> lazyLoadSpritesheet fs c' = (oe, c').
Proof.
  intros E.
  destruct (sprites c) as [s|] eqn:Hs.
  { rewrite lazyLoadSpritesheet_loaded in E by eauto.
    injection E as <- <-. apply lazyLoadSpritesheet_loaded. eauto. }
  revert E. unfold lazyLoadSpritesheet at 1, readPNG. rewrite Hs.
  destruct (fs_index fs _) as [msg | [stored [msg|]]] eqn:Hi.
  - intros [= <- <-]. unfold lazyLoadSpritesheet. by rewrite Hs, Hi.
  - intros [= <- <-]. unfold lazyLoadSpritesheet.
    cbn [sprites set_spriteIndex DataDir spriteIndex]. rewrite Hs, Hi.
    unfold set_spriteIndex. cbn.
    by rewrite decode_into_again.
  - cbn [DataDir set_spriteIndex].
    destruct (fs_png fs _) as [msg | img] eqn:Hp; intros [= <- <-].
    + unfold lazyLoadSpritesheet, readPNG.
      cbn [sprites set_spriteIndex DataDir spriteIndex]. rewrite Hs, Hi.
      cbn [DataDir set_spriteIndex]. rewrite Hp.
      unfold set_spriteIndex. cbn.
      by rewrite decode_into_again.
    + apply lazyLoadSpritesheet_loaded. cbn. eauto.
Qed.

(** What [SubImage] hands out lies within the image it was cut from. *)
Lemma Intersect_In (r s : image.Rectangle) :
  image.In (image.Intersect r s) s = true.
Proof.
  unfold image.Intersect.
  match goal with |- context [image.Empty ?x] => destruct (image.Empty x) eqn:E end.
  - reflexivity.
  - unfold image.In. rewrite E. unfold image.Empty in E. cbn in *.
    repeat match goal with
           | |- context [if ?b then _ else _] => destruct b eqn:?
           end; lia.
Qed.

Lemma SubImage_Bounds_In (p : image.RGBA) (r : image.Rectangle) :
  image.In (image.Bounds (image.SubImage p r)) (image.Bounds p) = true.
Proof.
  unfold image.SubImage, image.Bounds.
  destruct (image.Empty (image.Intersect r (image.Rect_ p))) eqn:E; cbn.
  - reflexivity.
  - apply Intersect_In.
Qed.

Lemma SubImage_Bounds (p : image.RGBA) (r : image.Rectangle) :
  image.Bounds (image.SubImage p r) = image.Intersect r (image.Bounds p).
Proof.
  unfold image.SubImage, image.Bounds.
  destruct (image.Empty (image.Intersect r (image.Rect_ p))) eqn:E; cbn; [| done].
  unfold image.Intersect in *.
  match goal with |- context [image.Empty ?x] => destruct (image.Empty x) eqn:E' end;
    [done | congruence].
Qed.

(** The successful runs of [loadBrushMask]. *)
Lemma loadBrushMask_Ok (c c' : Context) (name : string) (img : image.RGBA) :
  loadBrushMask fs c name = (Ok img, c') ->
  lazyLoadSpritesheet fs c = (None, c')
  /\ exists sheet x0 y0 x1 y1,
      sprites c' = Some sheet
      /\ spriteIndex c' !! name = Some [x0; y0; x1; y1]
      /\ image.Dx (image.Rect x0 y0 x1 y1) <= image.Dx (image.Bounds sheet)
      /\ image.Dy (image.Rect x0 y0 x1 y1) <= image.Dy (image.Bounds sheet)
      /\ img = image.SubImage sheet (image.Rect x0 y0 x1 y1).
Proof.
  unfold loadBrushMask.
  destruct (lazyLoadSpritesheet fs c) as [[err|] c1] eqn:L; [discriminate |].
  destruct (spriteIndex c1 !! name) as [idx|] eqn:I; [| discriminate].
  destruct idx as [|x0 [|y0 [|x1 [|y1 [|? ?]]]]]; try discriminate.
  destruct (sprites c1) as [sheet|] eqn:S; [| discriminate].
  destruct (_ || _) eqn:B; [discriminate |].
  intros [= <- <-]. split; [done |].
  exists sheet, x0, y0, x1, y1. repeat split; try done; lia.
Qed.

(** The failing runs of [loadBrushMask]. *)
Lemma loadBrushMask_Err (c c' : Context) (name : string) (e : error) :
  loadBrushMask fs c name = (Err e, c') ->
  (exists msg, e = External msg)
  \/ e = Errorf (NoSpriteImage name)
  \/ e = Errorf (InvalidSpriteEntry name)
  \/ e = Errorf SpriteBoundsNotWithin.
Proof.
  unfold loadBrushMask.
  destruct (lazyLoadSpritesheet fs c) as [[err|] c1] eqn:L.
  { intros [= <- <-].
    destruct (lazyLoadSpritesheet_cases _ _ _ L) as [[? _] | [[msg [= ->]] _]];
      [discriminate | eauto]. }
  destruct (spriteIndex c1 !! name) as [idx|] eqn:I; [| intros [= <- <-]; auto].
  destruct idx as [|x0 [|y0 [|x1 [|y1 [|? ?]]]]];
    try (intros [= <- <-]; auto).
  destruct (sprites c1) as [sheet|] eqn:S; [| intros [= <- <-]; eauto].
  destruct (_ || _) eqn:B; intros [= <-]; auto.
Qed.

Lemma loadBrushMask_state (c c' : Context) (name : string) (r : result image.RGBA) :
  loadBrushMask fs c name = (r, c') ->
  exists oe, lazyLoadSpritesheet fs c = (oe, c').
Proof.
  unfold loadBrushMask.
  destruct (lazyLoadSpritesheet fs c) as [[err|] c1] eqn:L.
  { intros [= <- <-]. eauto. }
  repeat match goal with
         | |- context [match ?x with _ => _ end] => destruct x
         end; intros [= <- <-]; eauto.
Qed.

(** C2, as the code has it.  If the rectangle of a sprite-index entry is
    wider or higher than the sprite sheet, [loadBrushMask] fails with the
    bounds error; and whenever [loadBrushMask] succeeds, the entry is no
    wider and no higher than the sheet and the bounds of the returned
    sub-image, the entry's rectangle clipped to the sheet, lie within the
    bounds of the sheet. *)
Theorem loadBrushMask_bounds (c c' : Context) (name : string)
    (r : result image.RGBA) :
  loadBrushMask fs c name = (r, c') ->
  (forall sheet x0 y0 x1 y1,
      sprites c' = Some sheet ->
      spriteIndex c' !! name = Some [x0; y0; x1; y1] ->
      image.Dx (image.Rect x0 y0 x1 y1) > image.Dx (image.Bounds sheet)
      \/ image.Dy (image.Rect x0 y0 x1 y1) > image.Dy (image.Bounds sheet) ->
      r = Err (Errorf SpriteBoundsNotWithin))
  /\ (forall img,
        r = Ok img ->
        exists sheet x0 y0 x1 y1,
          sprites c' = Some sheet
          /\ spriteIndex c' !! name = Some [x0; y0; x1; y1]
          /\ image.Dx (image.Rect x0 y0 x1 y1) <= image.Dx (image.Bounds sheet)
          /\ image.Dy (image.Rect x0 y0 x1 y1) <= image.Dy (image.Bounds sheet)
          /\ image.Bounds img
             = image.Intersect (image.Rect x0 y0 x1 y1) (image.Bounds sheet)
          /\ image.In (image.Bounds img) (image.Bounds sheet) = true).
Proof.
  intros E. split.
  - intros sheet x0 y0 x1 y1 S I B. revert E. unfold loadBrushMask.
    destruct (lazyLoadSpritesheet fs c) as [[err|] c1] eqn:L.
    { intros [= <- <-].
      destruct (lazyLoadSpritesheet_cases _ _ _ L) as [[? _] | [_ N]];
        [discriminate | congruence]. }
    destruct (spriteIndex c1 !! name) as [idx|] eqn:I1;
      [| intros [= <- <-]; congruence].
    destruct idx as [|a [|b [|a' [|b' [|? ?]]]]];
      try (intros [= <- <-]; congruence).
    destruct (sprites c1) as [sheet1|] eqn:S1; [| intros [= <- <-]; congruence].
    destruct (_ || _) eqn:Bb; intros [= <- <-]; [done |].
    rewrite S in S1. injection S1 as <-. rewrite I in I1.
    injection I1 as <- <- <- <-. exfalso.
    apply orb_false_iff in Bb as [? ?]. lia.
  - intros img ->. apply loadBrushMask_Ok in E as [_ (sheet & x0 & y0 & x1 & y1 & S & I & Bx & By & ->)].
    exists sheet, x0, y0, x1, y1. repeat split; try done.
    + apply SubImage_Bounds.
    + apply SubImage_Bounds_In.
Qed.

End SpriteFacts.

Lemma loadBrushMask_bounds_witness :
  fst (render.loadBrushMask samples.fs_wide render.DefaultContext "ballpoint")
  = Err (Errorf SpriteBoundsNotWithin)
  /\ exists sheet x0 y0 x1 y1,
      render.sprites (snd (render.loadBrushMask samples.fs_ok render.DefaultContext "pencil"))
      = Some sheet
      /\ render.spriteIndex
           (snd (render.loadBrushMask samples.fs_ok render.DefaultContext "pencil"))
         !! "pencil" = Some [x0; y0; x1; y1]
      /\ image.Bounds sheet = image.Rect 0 0 4 4
      /\ image.Rect x0 y0 x1 y1 = image.Rect 0 2 2 4.
Proof.
  split.
  - eapply (proj1 (loadBrushMask_bounds samples.fs_wide render.DefaultContext _
                     "ballpoint" _ (surjective_pairing _))).
    + vm_compute. reflexivity.
    + vm_compute. reflexivity.
    + left. vm_compute. reflexivity.
  - destruct (proj2 (loadBrushMask_bounds samples.fs_ok render.DefaultContext _
                       "pencil" _ (surjective_pairing _))
                    (image.SubImage
                       (render.copy_pixels samples.sheet
                          (image.NewRGBA (image.Rect 0 0 4 4)))
                       (image.Rect 0 2 2 4)))
      as (sheet & x0 & y0 & x1 & y1 & S & I & _ & _ & _ & _).
    + vm_compute. reflexivity.
    + exists sheet, x0, y0, x1, y1. split; [exact S |]. split; [exact I |].
      vm_compute in S. injection S as <-.
      vm_compute in I. injection I as <- <- <- <-.
      split; vm_compute; reflexivity.
Defined.

(** C2, as the claim has it, fails.  The entry [[2; 2; 6; 6]] on a sheet of
    four by four pixels does not lie within the sheet, yet [loadBrushMask]
    succeeds: only the width and the height of the entry are compared with
    those of the sheet. *)
Lemma loadBrushMask_shifted_counterexample :
  let run := render.loadBrushMask samples.fs_shifted render.DefaultContext "ballpoint" in
  (image.Bounds <$> render.sprites (snd run)) = Some (image.Rect 0 0 4 4)
  /\ render.spriteIndex (snd run) !! "ballpoint" = Some [2; 2; 6; 6]
  /\ image.In (image.Rect 2 2 6 6) (image.Rect 0 0 4 4) = false
  /\ is_Ok (fst run) = true.
Proof. vm_compute. repeat split. Qed.

(** ** Brush resolution *)

Section BrushFacts.

Import render.

Context `{Imaging} (fs : FS).

Lemma brushNames_lookup (bt : lines.BrushType) :
  brushNames !! bt =
  match bt with
  | lines.Ballpoint | lines.BallpointV5 => Some "ballpoint"
  | lines.Pencil | lines.PencilV5 => Some "pencil"
  | lines.MechanicalPencil | lines.MechanicalPencilV5 => Some "mech-pencil"
  | lines.Marker | lines.MarkerV5 => Some "marker"
  | lines.Fineliner | lines.FinelinerV5 => Some "fineliner"
  | lines.Highlighter | lines.HighlighterV5 => Some "highlighter"
  | lines.PaintBrush | lines.PaintBrushV5 | lines.CalligraphyV5 => Some "ballpoint"
  | lines.OtherBrush _ => None
  end%string.
Proof.
  destruct bt; try (vm_compute; reflexivity).
  apply not_elem_of_list_to_map_1. cbn. intros Hin.
  repeat (apply elem_of_cons in Hin as [Hin | Hin]; [discriminate |]).
  by apply elem_of_nil in Hin.
Qed.

(** No kind of the table has the empty name. *)
Lemma brushNames_nonempty (bt : lines.BrushType) (name : string) :
  brushNames !! bt = Some name -> String.eqb name "" = false.
Proof.
  rewrite brushNames_lookup. destruct bt; intros [= <-]; reflexivity.
Qed.

Lemma loadBrushMask_palette (c c' : Context) (name : string) (r : result image.RGBA) :
  loadBrushMask fs c name = (r, c') -> palette c' = palette c.
Proof.
  intros E. destruct (loadBrushMask_state _ _ _ _ _ E) as [oe L].
  by apply lazyLoadSpritesheet_palette in L as [? _].
Qed.

(** [loadBrush], step by step. *)
Lemma loadBrush_invalid_color (c : Context) (bt : lines.BrushType) (bc : lines.BrushColor) :
  Palette_Color (palette c) bc = None ->
  loadBrush fs c bt bc = (Err (Errorf (InvalidColor bc)), c).
Proof. unfold loadBrush. by intros ->. Qed.

Lemma loadBrush_unsupported (c : Context) (bt : lines.BrushType)
    (bc : lines.BrushColor) (v : color.value) :
  Palette_Color (palette c) bc = Some v ->
  brushNames !! bt = None ->
  loadBrush fs c bt bc = (Err (Errorf (UnsupportedBrushType bt)), c).
Proof. unfold loadBrush. by intros -> ->. Qed.

Lemma loadBrush_named (c : Context) (bt : lines.BrushType)
    (bc : lines.BrushColor) (v : color.value) (name : string) :
  Palette_Color (palette c) bc = Some v ->
  brushNames !! bt = Some name ->
  loadBrush fs c bt bc =
  match loadBrushMask fs c name with
  | (Err err, c') => (Err err, c')
  | (Ok img, c') => (Ok (brush_of (palette c') bt (CreateMask img) (Some v)), c')
  end.
Proof.
  intros Hc Hn. unfold loadBrush. rewrite Hc, Hn.
  change (default ""%string (Some name)) with name.
  rewrite (brushNames_nonempty _ _ Hn).
  destruct (loadBrushMask fs c name) as [[img | err] c']; [| done].
  unfold brush_of. by destruct bt.
Qed.

(** C1, as the code has it.  Given a colour that resolves: a brush kind
    without an entry in the table of brush names makes [loadBrush] fail
    with the error for an unsupported brush type; a kind with an entry
    never fails on its own, for [loadBrush] fails only where loading the
    mask fails and succeeds where it succeeds; and the result is the
    generic base pen exactly for the one kind that has an entry but no
    brush of its own, [CalligraphyV5]. *)
Theorem loadBrush_brush_kind (c : Context) (bt : lines.BrushType)
    (bc : lines.BrushColor) (v : color.value) :
  Palette_Color (palette c) bc = Some v ->
  (brushNames !! bt = None ->
   loadBrush fs c bt bc = (Err (Errorf (UnsupportedBrushType bt)), c))
  /\ (forall name, brushNames !! bt = Some name ->
      (forall e c', loadBrushMask fs c name = (Err e, c') ->
                    loadBrush fs c bt bc = (Err e, c'))
      /\ (forall img c', loadBrushMask fs c name = (Ok img, c') ->
          exists b, loadBrush fs c bt bc = (Ok b, c')
                    /\ (is_BasePen b = true <-> bt = lines.CalligraphyV5)
                    /\ (bt = lines.CalligraphyV5 ->
                        b = loadBasePen (CreateMask img) (Some v)))).
Proof.
  intros Hc. split; [by apply (loadBrush_unsupported _ _ _ v) |].
  intros name Hn. rewrite (loadBrush_named _ _ _ _ _ Hc Hn). split.
  - by intros e c' ->.
  - intros img c' ->. eexists. split; [reflexivity |].
    rewrite brushNames_lookup in Hn.
    split; [split |]; destruct bt; cbn; try done.
Qed.

(** A colour that resolves never ends in the error for an invalid
    colour. *)
Lemma loadBrush_valid_color (c : Context) (bt : lines.BrushType)
    (bc bc' : lines.BrushColor) (v : color.value) :
  Palette_Color (palette c) bc = Some v ->
  fst (loadBrush fs c bt bc) <> Err (Errorf (InvalidColor bc')).
Proof.
  intros Hc. destruct (brushNames !! bt) as [name|] eqn:Hn.
  - rewrite (loadBrush_named _ _ _ _ _ Hc Hn).
    destruct (loadBrushMask fs c name) as [[img | err] c'] eqn:E; cbn; [done |].
    apply loadBrushMask_Err in E as [[msg ->] | [-> | [-> | ->]]]; discriminate.
  - rewrite (loadBrush_unsupported _ _ _ _ Hc Hn). cbn. discriminate.
Qed.

(** C3.  For black, gray and white, [Palette.Color] returns a colour
    that is not [nil] even when the caller's mapping has no entry for the
    key, and [loadBrush] gets past its colour step.  For a colour that
    neither the caller's mapping nor the built-in defaults have,
    [Palette.Color] returns [nil] and [loadBrush] fails with the error for
    an invalid colour. *)
Theorem Palette_Color_defaults (c : Context) (bt : lines.BrushType)
    (bc : lines.BrushColor) :
  (builtin_color bc -> colors (palette c) !! bc = None ->
   Palette_Color (palette c) bc <> None
   /\ Palette_Color (palette c) bc = default None (defaultColors !! bc)
   /\ fst (loadBrush fs c bt bc) <> Err (Errorf (InvalidColor bc)))
  /\ (colors (palette c) !! bc = None -> defaultColors !! bc = None ->
      Palette_Color (palette c) bc = None
      /\ loadBrush fs c bt bc = (Err (Errorf (InvalidColor bc)), c)).
Proof.
  split.
  - intros Hb Ha. apply builtin_color_default in Hb as [v Hv].
    pose proof (Palette_Color_absent _ _ Ha) as Hp.
    assert (Hs : Palette_Color (palette c) bc = Some v).
    { unfold color.Color in *. by rewrite Hp, Hv. }
    split; [congruence |]. split; [done |].
    by eapply loadBrush_valid_color.
  - intros Ha Hd.
    pose proof (Palette_Color_absent _ _ Ha) as Hp.
    assert (Hs : Palette_Color (palette c) bc = None)
      by (unfold color.Color in *; by rewrite Hp, Hd).
    split; [done |]. by apply loadBrush_invalid_color.
Qed.

Lemma loadBrush_palette (c c' : Context) (bt : lines.BrushType)
    (bc : lines.BrushColor) (r : result Brush) :
  loadBrush fs c bt bc = (r, c') -> palette c' = palette c.
Proof.
  destruct (Palette_Color (palette c) bc) as [v|] eqn:Hc.
  - destruct (brushNames !! bt) as [name|] eqn:Hn.
    + rewrite (loadBrush_named _ _ _ _ _ Hc Hn).
      destruct (loadBrushMask fs c name) as [[img | err] c1] eqn:E;
        intros [= <- <-]; by eapply loadBrushMask_palette.
    + rewrite (loadBrush_unsupported _ _ _ _ Hc Hn). by intros [= <- <-].
  - rewrite (loadBrush_invalid_color _ _ _ Hc). by intros [= <- <-].
Qed.


End BrushFacts.

Lemma loadBrush_brush_kind_witness :
  @render.loadBrush samples.imaging samples.fs_ok render.DefaultContext
    (lines.OtherBrush 6) lines.Black
  = (Err (Errorf (UnsupportedBrushType (lines.OtherBrush 6))), render.DefaultContext)
  /\ exists b c',
      @render.loadBrush samples.imaging samples.fs_ok render.DefaultContext
        lines.CalligraphyV5 lines.Black = (Ok b, c')
      /\ @render.is_BasePen samples.imaging b = true.
Proof.
  split.
  - apply (proj1 (@loadBrush_brush_kind samples.imaging samples.fs_ok
                    render.DefaultContext (lines.OtherBrush 6) lines.Black
                    (color.Gray16 0) eq_refl)).
    vm_compute. reflexivity.
  - destruct (render.loadBrushMask samples.fs_ok render.DefaultContext "ballpoint")
      as [[img | e] c'] eqn:E; [| vm_compute in E; discriminate].
    destruct (proj2 (proj2 (@loadBrush_brush_kind samples.imaging samples.fs_ok
                              render.DefaultContext lines.CalligraphyV5 lines.Black
                              (color.Gray16 0) eq_refl)
                           "ballpoint"%string eq_refl) img c' E)
      as (b & Eb & Hbase & _).
    exists b, c'. split; [exact Eb | apply Hbase; reflexivity].
Defined.

(** C1, as the claim has it, fails.  With the default palette and a
    loadable sprite sheet, black resolves and the ballpoint is built, yet
    a brush kind outside the table of brush names makes [loadBrush] return
    an error: the lookup of the name comes before the fallback. *)
Lemma loadBrush_unknown_kind_counterexample :
  render.Palette_Color (render.palette render.DefaultContext) lines.Black = color.Black
  /\ is_Ok (fst (@render.loadBrush samples.imaging samples.fs_ok render.DefaultContext
                   lines.Ballpoint lines.Black)) = true
  /\ fst (@render.loadBrush samples.imaging samples.fs_ok render.DefaultContext
            (lines.OtherBrush 6) lines.Black)
     = Err (Errorf (UnsupportedBrushType (lines.OtherBrush 6))).
Proof. vm_compute. repeat split. Qed.

Lemma Palette_Color_defaults_witness :
  (render.Palette_Color samples.palette_empty lines.Black <> None
   /\ render.Palette_Color samples.palette_empty lines.Black = color.Black)
  /\ @render.loadBrush samples.imaging samples.fs_ok samples.ctx_empty
       lines.Ballpoint (lines.OtherColor 0)
     = (Err (Errorf (InvalidColor (lines.OtherColor 0))), samples.ctx_empty).
Proof.
  split.
  - destruct (proj1 (@Palette_Color_defaults samples.imaging samples.fs_ok
                       samples.ctx_empty lines.Ballpoint lines.Black))
      as (Hn & Hd & _).
    + left. reflexivity.
    + reflexivity.
    + split; [exact Hn | exact Hd].
  - apply (proj2 (@Palette_Color_defaults samples.imaging samples.fs_ok
                    samples.ctx_empty lines.Ballpoint (lines.OtherColor 0)));
      reflexivity.
Defined.

(** C7, as the claim has it, fails.  With the default palette and a
    loadable sprite sheet a highlighter is built for black, yet for a colour
    that the palette does not resolve no highlighter is built at all: the
    colour is looked up before the brush kind is. *)
Lemma loadBrush_Highlighter_unresolved_counterexample :
  is_Ok (fst (@render.loadBrush samples.imaging samples.fs_ok render.DefaultContext
                lines.Highlighter lines.Black)) = true
  /\ render.Palette_Color (render.palette render.DefaultContext) (lines.OtherColor 0)
     = None
  /\ fst (@render.loadBrush samples.imaging samples.fs_ok render.DefaultContext
            lines.Highlighter (lines.OtherColor 0))
     = Err (Errorf (InvalidColor (lines.OtherColor 0))).
Proof. vm_compute. repeat split. Qed.


(** ** Document assembly *)

Section PdfFacts.

Import render.

Context `{Gofpdf} `{!PageRenderer}.

(** The loop of [drawingsPdf] ends without an error exactly when every
    page succeeded in turn. *)
Lemma drawingsPdf_loop_None (d : rmtool.Document) (pages : list string) :
  forall i s pdf s' pdf',
    drawingsPdf_loop s pdf d i pages = (None, s', pdf')
    <-> pages_ok d i pages s pdf s' pdf'.
Proof.
  induction pages as [|pid pages IH]; intros i s pdf s' pdf'; cbn.
  - split.
    + intros [= <- <-]. constructor.
    + inversion 1; subst. reflexivity.
  - destruct (doRenderPdfPage s pdf d pid i) as [[[e|] s1] pdf1] eqn:E.
    + split; [discriminate |]. inversion 1; subst. congruence.
    + rewrite IH. split.
      * intros Hok. econstructor; eauto.
      * inversion 1; subst.
        match goal with
        | Hd : doRenderPdfPage _ _ _ _ _ = _ |- _ =>
            rewrite E in Hd; injection Hd as <- <-
        end. assumption.
Qed.

(** The loop ends with the error of the first page that fails, in the
    state that page left, and the pages after it are not touched. *)
Lemma drawingsPdf_loop_Some (d : rmtool.Document) (pages : list string) :
  forall i s pdf e s' pdf',
    drawingsPdf_loop s pdf d i pages = (Some e, s', pdf')
    <-> exists pre pid post s1 pdf1,
        pages = pre ++ pid :: post
        /\ pages_ok d i pre s pdf s1 pdf1
        /\ doRenderPdfPage s1 pdf1 d pid (i + rmtool.len pre) = (Some e, s', pdf').
Proof.
  induction pages as [|pid pages IH]; intros i s pdf e s' pdf'; cbn.
  - split; [discriminate |].
    intros (pre & p & post & ? & ? & Hp & _). by destruct pre.
  - destruct (doRenderPdfPage s pdf d pid i) as [[[e1|] s1] pdf1] eqn:E.
    + split.
      * intros [= <- <- <-]. exists [], pid, pages, s, pdf.
        split; [done |]. split; [constructor |].
        unfold rmtool.len. cbn. by rewrite Z.add_0_r.
      * intros (pre & p & post & s2 & pdf2 & Hp & Hok & Hf).
        destruct pre as [|q pre]; cbn in Hp; injection Hp as <- ->.
        -- inversion Hok; subst. unfold rmtool.len in Hf. cbn in Hf.
           rewrite Z.add_0_r in Hf. congruence.
        -- inversion Hok; subst. congruence.
    + rewrite IH. split.
      * intros (pre & p & post & s2 & pdf2 & -> & Hok & Hf).
        exists (pid :: pre), p, post, s2, pdf2.
        split; [done |]. split; [econstructor; eauto |].
        unfold rmtool.len in *. cbn [length].
        replace (i + Z.of_nat (S (length pre))) with (i + 1 + Z.of_nat (length pre))
          by lia. done.
      * intros (pre & p & post & s2 & pdf2 & Hp & Hok & Hf).
        destruct pre as [|q pre]; cbn in Hp; injection Hp as <- ->.
        -- unfold rmtool.len in Hf. cbn in Hf. rewrite Z.add_0_r in Hf.
           inversion Hok; subst. congruence.
        -- inversion Hok; subst.
           match goal with
           | Hd : doRenderPdfPage s pdf d _ i = _ |- _ =>
               rewrite E in Hd; injection Hd as <- <-
           end.
           exists pre, p, post, s2, pdf2. split; [done |]. split; [done |].
           unfold rmtool.len in *. cbn [length] in Hf.
           replace (i + 1 + Z.of_nat (length pre)) with (i + Z.of_nat (S (length pre)))
             by lia. done.
Qed.

(** C5.  The full-document render is all or nothing.  If a page of a
    document fails after the pages before it succeeded, [renderPdf]
    returns the error of that page and the writer is as it was; the same
    holds on both paths whenever putting the pages on the PDF fails.  If
    the writer has changed, every page was put on the PDF without an
    error before, and what was written is the output of that PDF. *)
Theorem renderPdf_atomic (s : St) (d : rmtool.Document) (w : Writer) :
  (forall pre pid post s1 pdf1 e s2 pdf2,
      rmtool.doc_FileType d <> rmtool.Epub ->
      rmtool.doc_FileType d <> rmtool.Pdf ->
      rmtool.doc_Pages d = pre ++ pid :: post ->
      pages_ok d 0 pre s (setupPdf defaultPageSize (Some d)) s1 pdf1 ->
      doRenderPdfPage s1 pdf1 d pid (rmtool.len pre) = (Some e, s2, pdf2) ->
      renderPdf s d w = (Some e, s2, w))
  /\ (forall e s' pdf',
        rmtool.doc_FileType d <> rmtool.Epub ->
        renderPdf_pages s d = (Some e, s', pdf') ->
        renderPdf s d w = (Some e, s', w))
  /\ (forall oe s' w',
        renderPdf s d w = (oe, s', w') -> w' <> w ->
        exists s1 pdf,
          renderPdf_pages s d = (None, s1, pdf)
          /\ Output pdf w = (oe, w')
          /\ s' = st_call s1 CallOutput
          /\ (rmtool.doc_FileType d <> rmtool.Pdf ->
              pages_ok d 0 (rmtool.doc_Pages d) s
                       (setupPdf defaultPageSize (Some d)) s1 pdf)).
Proof.
  assert (Hfail : forall e s' pdf',
             rmtool.doc_FileType d <> rmtool.Epub ->
             renderPdf_pages s d = (Some e, s', pdf') ->
             renderPdf s d w = (Some e, s', w)).
  { intros e s' pdf' Hne E. unfold renderPdf.
    destruct (Z.eqb_spec (rmtool.doc_FileType d) rmtool.Epub); [done |].
    by rewrite E. }
  split; [| split; [exact Hfail |]].
  - intros pre pid post s1 pdf1 e s2 pdf2 Hne Hnp Hp Hok Hf.
    apply (Hfail e s2 pdf2 Hne). unfold renderPdf_pages.
    destruct (Z.eqb_spec (rmtool.doc_FileType d) rmtool.Pdf); [done |].
    unfold drawingsPdf. apply drawingsPdf_loop_Some.
    exists pre, pid, post, s1, pdf1. by rewrite Z.add_0_l.
  - intros oe s' w' E Hw. revert E. unfold renderPdf.
    destruct (Z.eqb_spec (rmtool.doc_FileType d) rmtool.Epub);
      [intros [= _ _ <-]; done |].
    destruct (renderPdf_pages s d) as [[[e|] s1] pdf] eqn:P;
      [intros [= _ _ <-]; done |].
    destruct (Output pdf w) as [oe1 w1] eqn:O. intros [= <- <- <-].
    exists s1, pdf. repeat split; try done.
    intros Hnp. revert P. unfold renderPdf_pages.
    destruct (Z.eqb_spec (rmtool.doc_FileType d) rmtool.Pdf); [done |].
    unfold drawingsPdf. apply drawingsPdf_loop_None.
Qed.

(** C6.  For a document whose file kind is EPUB the full-document render
    fails at once with the error for an unsupported file type: no
    drawing is looked up, no page is rendered, the context is as it was
    and nothing is written.  So it is for [Context.Pdf] and for [Pdf]
    with its default context. *)
Theorem renderPdf_Epub_unsupported (s : St) (d : rmtool.Document) (w : Writer) :
  rmtool.doc_FileType d = rmtool.Epub ->
  renderPdf s d w = (Some (Errorf (RenderPdfNotSupported rmtool.Epub)), s, w)
  /\ Context_Pdf s d w = (Some (Errorf (RenderPdfNotSupported rmtool.Epub)), s, w)
  /\ Pdf s d w = (Some (Errorf (RenderPdfNotSupported rmtool.Epub)),
                  st_set_ctx s DefaultContext, w).
Proof.
  intros He. unfold Pdf, Context_Pdf, renderPdf. by rewrite He.
Qed.

(** C9.  The gate for EPUB is on the full-document path only.  For a
    document whose file kind is EPUB, [renderPdf] is rejected, while
    [PdfPage] does not read the file kind: it looks the drawing up first
    and, when there is one, renders it; every error it returns is the one
    of the lookup, of the page renderer or of the output; and when lookup
    and rendering succeed it hands the one-page PDF to the output. *)
Theorem PdfPage_no_file_type_gate (s : St) (d : rmtool.Document)
    (pageID : string) (w : Writer) :
  rmtool.doc_FileType d = rmtool.Epub ->
  renderPdf s d w = (Some (Errorf (RenderPdfNotSupported rmtool.Epub)), s, w)
  /\ (forall ft, PdfPage s (rmtool.with_FileType d ft) pageID w = PdfPage s d pageID w)
  /\ (exists calls,
        st_calls (snd (fst (PdfPage s d pageID w)))
        = st_calls s ++ CallDrawing pageID :: calls)
  /\ (forall dr, rmtool.doc_Drawing d pageID = Ok dr ->
        exists calls,
          st_calls (snd (fst (PdfPage s d pageID w)))
          = st_calls s ++ CallDrawing pageID :: CallRenderPNG dr :: calls)
  /\ (forall e s' w', PdfPage s d pageID w = (Some e, s', w') ->
        rmtool.doc_Drawing d pageID = Err e
        \/ (exists dr c', rmtool.doc_Drawing d pageID = Ok dr
                          /\ renderPNG (st_ctx s) dr false = (Err e, c'))
        \/ (exists pdf, Output pdf w = (Some e, w')))
  /\ (forall dr buf c',
        rmtool.doc_Drawing d pageID = Ok dr ->
        renderPNG (st_ctx s) dr false = (Ok buf, c') ->
        exists pdf s',
          In AddPage pdf
          /\ In (RegisterImageOptionsReader
                   (uuid_String (st_uuids s))
                   {| ImageType := "PNG"; ReadDpi := true |} buf) pdf
          /\ st_ctx s' = c'
          /\ PdfPage s d pageID w = (fst (Output pdf w), s', snd (Output pdf w))).
Proof.
  intros He. split; [unfold renderPdf; by rewrite He |].
  split; [reflexivity |].
  unfold PdfPage, doRenderPdfPage, drawingToPdf.
  destruct (rmtool.doc_Drawing d pageID) as [dr | e0] eqn:D.
  - cbn [st_ctx st_call st_next_uuid st_uuids].
    destruct (renderPNG (st_ctx s) dr false) as [[buf | e1] c1] eqn:R.
    + destruct (GetPageSize _) as [wPage hPage].
      destruct (GetMargins _) as [[[ml mt] mr] mb].
      match goal with
      | |- context [Output ?p w] => destruct (Output p w) as [oe w1] eqn:O
      end.
      cbn. split; [| split; [| split; [| ]]].
      * eexists. rewrite <- !app_assoc. reflexivity.
      * intros dr' [= <-]. eexists. rewrite <- !app_assoc. reflexivity.
      * intros e s' w' [= -> <- <-]. right. right. eauto.
      * intros dr' buf' c' [= <-] HR. rewrite R in HR. injection HR as <- <-.
        eexists. eexists. split; [| split; [| split; [| rewrite O; reflexivity]]].
        -- apply in_or_app. left. apply in_or_app. left.
           apply in_or_app. right. left. reflexivity.
        -- apply in_or_app. left. apply in_or_app. right. left. reflexivity.
        -- reflexivity.
    + cbn. split; [| split; [| split; [| ]]].
      * eexists. rewrite <- !app_assoc. reflexivity.
      * intros dr' [= <-]. eexists. rewrite <- !app_assoc. reflexivity.
      * intros e s' w' [= -> <- <-]. right. left. eauto.
      * intros dr' buf' c' [= <-] HR. rewrite R in HR. discriminate.
  - cbn. split; [| split; [| split; [| ]]].
    + eexists. reflexivity.
    + intros dr' [=].
    + intros e s' w' [= -> <- <-]. left. reflexivity.
    + intros dr' buf' c' [=].
Qed.

End PdfFacts.

Lemma renderPdf_atomic_witness :
  exists s2,
    @render.renderPdf samples.float samples.gofpdf samples.renderer samples.st0
      (samples.document rmtool.Notebook ["p1"; "bad"; "p2"]) [7]
    = (Some (Errorf (InvalidColor (lines.OtherColor 0))), s2, [7]).
Proof.
  pose (d := samples.document rmtool.Notebook ["p1"; "bad"; "p2"]).
  destruct (@render.doRenderPdfPage samples.float samples.gofpdf samples.renderer
              samples.st0 (render.setupPdf render.defaultPageSize (Some d)) d "p1" 0)
    as [[[e|] s1] pdf1] eqn:E1; [vm_compute in E1; discriminate |].
  destruct (@render.doRenderPdfPage samples.float samples.gofpdf samples.renderer
              s1 pdf1 d "bad" (rmtool.len ["p1"]))
    as [[[e|] s2] pdf2] eqn:E2.
  - exists s2.
    assert (He : e = Errorf (InvalidColor (lines.OtherColor 0))).
    { pose proof E1 as E1'. pose proof E2 as E2'. clear E1 E2.
      vm_compute in E1'. injection E1' as <- <-.
      vm_compute in E2'. by injection E2' as <- _ _. }
    subst e.
    apply (proj1 (@renderPdf_atomic samples.float samples.gofpdf samples.renderer
                    samples.st0 d [7])
                 ["p1"] "bad" ["p2"] s1 pdf1 _ s2 pdf2).
    + discriminate.
    + discriminate.
    + reflexivity.
    + econstructor; [exact E1 | constructor].
    + exact E2.
  - exfalso. vm_compute in E1. injection E1 as <- <-.
    vm_compute in E2. discriminate.
Defined.

Lemma renderPdf_Epub_unsupported_witness :
  @render.renderPdf samples.float samples.gofpdf samples.renderer samples.st0
    (samples.document rmtool.Epub ["p1"; "p2"]) []
  = (Some (Errorf (RenderPdfNotSupported rmtool.Epub)), samples.st0, []).
Proof.
  apply (proj1 (@renderPdf_Epub_unsupported samples.float samples.gofpdf
                  samples.renderer samples.st0
                  (samples.document rmtool.Epub ["p1"; "p2"]) [] eq_refl)).
Defined.

Lemma PdfPage_no_file_type_gate_witness :
  exists calls,
    render.st_calls
      (snd (fst (@render.PdfPage samples.float samples.gofpdf samples.renderer
                   samples.st0 (samples.document rmtool.Epub ["p1"; "p2"]) "p1" [])))
    = render.CallDrawing "p1" :: render.CallRenderPNG samples.drawing_ok :: calls.
Proof.
  apply (proj1 (proj2 (proj2 (proj2
           (@PdfPage_no_file_type_gate samples.float samples.gofpdf samples.renderer
              samples.st0 (samples.document rmtool.Epub ["p1"; "p2"]) "p1" []
              eq_refl))))
         samples.drawing_ok eq_refl).
Defined.

(** ** Rendering a page twice *)

Section RenderFacts.

Import render.

Context `{Compositing} (fs : FS).

(** With the sheet in place, loading a mask or a brush leaves the
    context as it is. *)
Lemma loadBrushMask_loaded (c c' : Context) (name : string) (r : result image.RGBA) :
  is_Some (sprites c) -> loadBrushMask fs c name = (r, c') -> c' = c.
Proof.
  intros Hs E. destruct (loadBrushMask_state _ _ _ _ _ E) as [oe L].
  rewrite lazyLoadSpritesheet_loaded in L by done. congruence.
Qed.

(** Loading a mask again, in the context that the first load left, ends
    the same way and changes nothing. *)
Lemma loadBrushMask_again (c c' : Context) (name : string) (r : result image.RGBA) :
  loadBrushMask fs c name = (r, c') -> loadBrushMask fs c' name = (r, c').
Proof.
  unfold loadBrushMask.
  destruct (lazyLoadSpritesheet fs c) as [oe c1] eqn:L.
  pose proof (lazyLoadSpritesheet_again _ _ _ _ L) as L'.
  destruct oe as [err|].
  - intros [= <- <-]. by rewrite L'.
  - intros E.
    assert (c' = c1) as ->.
    { revert E.
      repeat match goal with
             | |- context [match ?x with _ => _ end] => destruct x
             end; by intros [= <- <-]. }
    by rewrite L'.
Qed.

Lemma loadBrush_state (c c' : Context) (bt : lines.BrushType)
    (bc : lines.BrushColor) (r : result Brush) :
  loadBrush fs c bt bc = (r, c') ->
  c' = c \/ exists name rm, loadBrushMask fs c name = (rm, c').
Proof.
  destruct (Palette_Color (palette c) bc) as [v|] eqn:Hc.
  - destruct (brushNames !! bt) as [name|] eqn:Hn.
    + rewrite (loadBrush_named _ _ _ _ _ _ Hc Hn).
      destruct (loadBrushMask fs c name) as [[img | err] c1] eqn:E;
        intros [= <- <-]; eauto.
    + rewrite (loadBrush_unsupported _ _ _ _ _ Hc Hn). intros [= <- <-]. auto.
  - rewrite (loadBrush_invalid_color _ _ _ _ Hc). intros [= <- <-]. auto.
Qed.

Lemma loadBrush_loaded (c c' : Context) (bt : lines.BrushType)
    (bc : lines.BrushColor) (r : result Brush) :
  is_Some (sprites c) -> loadBrush fs c bt bc = (r, c') -> c' = c.
Proof.
  intros Hs E. destruct (loadBrush_state _ _ _ _ _ E) as [-> | (name & rm & M)];
    [done | by eapply loadBrushMask_loaded].
Qed.

(** A brush is only handed out with the sheet in place. *)
Lemma loadBrush_Ok_loaded (c c' : Context) (bt : lines.BrushType)
    (bc : lines.BrushColor) (b : Brush) :
  loadBrush fs c bt bc = (Ok b, c') -> is_Some (sprites c').
Proof.
  destruct (Palette_Color (palette c) bc) as [v|] eqn:Hc.
  - destruct (brushNames !! bt) as [name|] eqn:Hn.
    + rewrite (loadBrush_named _ _ _ _ _ _ Hc Hn).
      destruct (loadBrushMask fs c name) as [[img | err] c1] eqn:E;
        intros [= <- <-].
      apply loadBrushMask_Ok in E as [_ (sheet & ? & ? & ? & ? & S & _)].
      rewrite S. eauto.
    + by rewrite (loadBrush_unsupported _ _ _ _ _ Hc Hn).
  - by rewrite (loadBrush_invalid_color _ _ _ _ Hc).
Qed.

(** Resolving a brush again, in the context that the first resolution
    left, gives the same brush or the same error and changes nothing. *)
Lemma loadBrush_again (c c' : Context) (bt : lines.BrushType)
    (bc : lines.BrushColor) (r : result Brush) :
  loadBrush fs c bt bc = (r, c') -> loadBrush fs c' bt bc = (r, c').
Proof.
  intros E. pose proof (loadBrush_palette _ _ _ _ _ _ E) as Hp. revert E.
  destruct (Palette_Color (palette c) bc) as [v|] eqn:Hc.
  - assert (Hc' : Palette_Color (palette c') bc = Some v) by by rewrite Hp.
    destruct (brushNames !! bt) as [name|] eqn:Hn.
    + rewrite (loadBrush_named _ _ _ _ _ _ Hc Hn),
        (loadBrush_named _ _ _ _ _ _ Hc' Hn).
      destruct (loadBrushMask fs c name) as [[img | err] c1] eqn:M;
        intros [= <- <-]; by rewrite (loadBrushMask_again _ _ _ _ M).
    + rewrite (loadBrush_unsupported _ _ _ _ _ Hc Hn),
        (loadBrush_unsupported _ _ _ _ _ Hc' Hn). by intros [= <- <-].
  - assert (Hc' : Palette_Color (palette c') bc = None) by by rewrite Hp.
    rewrite (loadBrush_invalid_color _ _ _ _ Hc),
      (loadBrush_invalid_color _ _ _ _ Hc'). by intros [= <- <-].
Qed.

Lemma renderStrokes_loaded (ss : list lines.Stroke) :
  forall c cv r c',
    is_Some (sprites c) -> page.renderStrokes fs c cv ss = (r, c') -> c' = c.
Proof.
  induction ss as [|s ss IH]; intros c cv r c' Hs; cbn.
  - by intros [= <- <-].
  - destruct (loadBrush fs c _ _) as [[b | err] c1] eqn:E;
      pose proof (loadBrush_loaded _ _ _ _ _ Hs E) as ->.
    + by apply IH.
    + by intros [= <- <-].
Qed.

Lemma renderStrokes_palette (ss : list lines.Stroke) :
  forall c cv r c', page.renderStrokes fs c cv ss = (r, c') -> palette c' = palette c.
Proof.
  induction ss as [|s ss IH]; intros c cv r c'; cbn.
  - by intros [= <- <-].
  - destruct (loadBrush fs c _ _) as [[b | err] c1] eqn:E;
      pose proof (loadBrush_palette _ _ _ _ _ _ E) as Hp.
    + intros E'. apply IH in E'. congruence.
    + by intros [= <- <-].
Qed.

(** Strokes that were painted leave the sheet in place, unless there was
    no stroke to paint. *)
Lemma renderStrokes_Ok_loaded (ss : list lines.Stroke) :
  forall c cv cv' c',
    page.renderStrokes fs c cv ss = (Ok cv', c') ->
    ss = [] \/ is_Some (sprites c').
Proof.
  destruct ss as [|s ss]; intros c cv cv' c'; cbn; [auto |].
  destruct (loadBrush fs c _ _) as [[b | err] c1] eqn:E; [| discriminate].
  intros E'. right. pose proof (loadBrush_Ok_loaded _ _ _ _ _ E) as Hs.
  by rewrite (renderStrokes_loaded _ _ _ _ _ Hs E').
Qed.

Lemma renderStrokes_again (ss : list lines.Stroke) :
  forall c cv r c',
    page.renderStrokes fs c cv ss = (r, c') ->
    page.renderStrokes fs c' cv ss = (r, c').
Proof.
  destruct ss as [|s ss]; intros c cv r c'; cbn.
  - by intros [= <- <-].
  - destruct (loadBrush fs c _ _) as [[b | err] c1] eqn:E.
    + intros E'. pose proof (loadBrush_Ok_loaded _ _ _ _ _ E) as Hs.
      pose proof (renderStrokes_loaded _ _ _ _ _ Hs E') as ->.
      by rewrite (loadBrush_again _ _ _ _ _ E).
    + intros [= <- <-]. by rewrite (loadBrush_again _ _ _ _ _ E).
Qed.

Lemma renderLayers_loaded (ls : list lines.Layer) :
  forall c cv r c',
    is_Some (sprites c) -> page.renderLayers fs c cv ls = (r, c') -> c' = c.
Proof.
  induction ls as [|l ls IH]; intros c cv r c' Hs; cbn.
  - by intros [= <- <-].
  - destruct (page.renderStrokes fs c cv _) as [[cv1 | err] c1] eqn:E;
      pose proof (renderStrokes_loaded _ _ _ _ _ Hs E) as ->.
    + by apply IH.
    + by intros [= <- <-].
Qed.

Lemma renderLayers_palette (ls : list lines.Layer) :
  forall c cv r c', page.renderLayers fs c cv ls = (r, c') -> palette c' = palette c.
Proof.
  induction ls as [|l ls IH]; intros c cv r c'; cbn.
  - by intros [= <- <-].
  - destruct (page.renderStrokes fs c cv _) as [[cv1 | err] c1] eqn:E;
      pose proof (renderStrokes_palette _ _ _ _ _ E) as Hp.
    + intros E'. apply IH in E'. congruence.
    + by intros [= <- <-].
Qed.

Lemma renderLayers_again (ls : list lines.Layer) :
  forall c cv r c',
    page.renderLayers fs c cv ls = (r, c') ->
    page.renderLayers fs c' cv ls = (r, c').
Proof.
  induction ls as [|l ls IH]; intros c cv r c'; cbn.
  - by intros [= <- <-].
  - destruct (page.renderStrokes fs c cv _) as [[cv1 | err] c1] eqn:E.
    + intros E'.
      destruct (renderStrokes_Ok_loaded _ _ _ _ _ E) as [Hnil | Hs].
      * rewrite Hnil in *. cbn in *. injection E as <- <-. exact (IH _ _ _ _ E').
      * pose proof (renderLayers_loaded _ _ _ _ _ Hs E') as ->.
        by rewrite (renderStrokes_again _ _ _ _ _ E).
    + intros [= <- <-]. by rewrite (renderStrokes_again _ _ _ _ _ E).
Qed.

(** C8.  Rendering is deterministic.  Rendering a drawing with a context
    and then rendering the same drawing again with the same context, as
    the first render left it, gives the same bytes or the same error; the
    second render finds the caches as the first one filled them and
    leaves them as they are. *)
Theorem renderPNG_deterministic (c : Context) (d : lines.Drawing) (flag : bool) :
  page.renderPNG fs (snd (page.renderPNG fs c d flag)) d flag
  = page.renderPNG fs c d flag.
Proof.
  unfold page.renderPNG.
  destruct (page.renderLayers fs c _ _) as [[cv | err] c1] eqn:E;
    pose proof (renderLayers_palette _ _ _ _ _ E) as Hp;
    apply renderLayers_again in E; cbn [snd]; rewrite Hp; by rewrite E.
Qed.

End RenderFacts.

Lemma renderPNG_deterministic_witness :
  let run := @render.page.renderPNG samples.imaging samples.compositing samples.fs_ok in
  fst (run (snd (run render.DefaultContext samples.drawing_ok false))
           samples.drawing_ok false)
  = Ok [2; 2].
Proof.
  cbv zeta.
  rewrite (@renderPNG_deterministic samples.imaging samples.compositing
             samples.fs_ok render.DefaultContext samples.drawing_ok false).
  vm_compute. reflexivity.
Defined.

(** * More of the code *)

(** ** Page metadata and fresh content *)

Section ContentFacts.

Import rmtool.

Lemma validate_layers_None_iff (ls : list LayerMetadata) :
  validate_layers ls = None <-> Forall (fun l => Name l <> ""%string) ls.
Proof.
  induction ls as [|l ls IH]; cbn.
  - split; [constructor | done].
  - unfold LayerMetadata_Validate.
    destruct (String.eqb_spec (Name l) "") as [E | E].
    + split; [discriminate |]. inversion 1; subst. contradiction.
    + rewrite IH. split.
      * by constructor.
      * by inversion 1.
Qed.

Lemma validate_layers_error (ls : list LayerMetadata) (e : error) :
  validate_layers ls = Some e -> e = ValidationError EmptyLayerName.
Proof.
  induction ls as [|l ls IH]; cbn; [discriminate |].
  unfold LayerMetadata_Validate.
  destruct (String.eqb (Name l) ""); [by intros [= <-] | exact IH].
Qed.

(** X1.  [PageMetadata.Validate] accepts a page exactly when its list of
    layers is there, has between one and five layers, and every layer has
    a name that is not empty; whatever it rejects, it rejects with a
    ValidationError. *)
Theorem PageMetadata_Validate_spec (p : PageMetadata) :
  (PageMetadata_Validate p = None <->
   exists ls, Layers p = Some ls
              /\ 1 <= len ls <= maxLayers
              /\ Forall (fun l => Name l <> ""%string) ls)
  /\ (forall e, PageMetadata_Validate p = Some e ->
                exists msg, e = ValidationError msg).
Proof.
  unfold PageMetadata_Validate, maxLayers, NewValidationError.
  destruct (Layers p) as [ls|].
  - destruct (Z.eqb_spec (len ls) 0) as [E0 | E0].
    { split.
      - split; [discriminate |]. intros (ls' & [= <-] & ? & _). lia.
      - intros e [= <-]. eauto. }
    destruct (len ls >? 5) eqn:E5.
    { split.
      - split; [discriminate |]. intros (ls' & [= <-] & ? & _). lia.
      - intros e [= <-]. eauto. }
    split.
    + rewrite validate_layers_None_iff. split.
      * intros Hall. exists ls. repeat split; try done; unfold len in *; lia.
      * by intros (ls' & [= <-] & _ & Hall).
    + intros e He. apply validate_layers_error in He. eauto.
  - split.
    + split; [discriminate |]. by intros (ls & ? & _).
    + intros e [= <-]. eauto.
Qed.

Lemma PageMetadata_Validate_spec_witness :
  PageMetadata_Validate
    (mkPageMetadata (Some [mkLayerMetadata "Layer 1"; mkLayerMetadata "Layer 2"]))
  = None
  /\ exists msg, PageMetadata_Validate (mkPageMetadata (Some []))
                 = Some (ValidationError msg).
Proof.
  split.
  - apply (proj1 (PageMetadata_Validate_spec _)). eexists. split; [reflexivity |].
    split; [unfold len, maxLayers; simpl; lia |].
    repeat constructor; discriminate.
  - destruct (PageMetadata_Validate (mkPageMetadata (Some []))) as [e|] eqn:E;
      [| vm_compute in E; discriminate].
    destruct (proj2 (PageMetadata_Validate_spec _) e E) as [msg ->]. eauto.
Defined.

(** X2.  The content that [NewContent] builds for a file type passes
    [Validate] exactly when the file type is one of notebook, PDF and
    EPUB: its other fields are valid as they are. *)
Theorem NewContent_Validate (f : FileType) :
  Validate (NewContent f) = None <-> f = Notebook \/ f = Pdf \/ f = Epub.
Proof.
  rewrite Validate_None_iff.
  unfold valid_file_type, valid_orientation, valid_text_alignment,
    cover_page_unset, cover_page_existing. cbn.
  split; [tauto |]. intros Hf. repeat split; auto.
Qed.



End ContentFacts.

Lemma NewContent_Validate_witness :
  rmtool.Validate (rmtool.NewContent rmtool.Pdf) = None.
Proof.
  apply (proj2 (NewContent_Validate rmtool.Pdf)). right. left. reflexivity.
Defined.

(** ** The enumerations as JSON *)

Section CodecFacts.

Import rmtool.

Context `{Json}.

(** X4.  The [UnmarshalJSON] methods of the four enumerations never leave
    an unnamed value behind: when one returns no error the receiver holds
    a named value of its type, and when it returns an error the receiver
    holds what it held before. *)
Theorem UnmarshalJSON_valid_or_unchanged (v : Z) (b : string) :
  (forall oe n, NotebookType_UnmarshalJSON v b = (oe, n) ->
      (oe = None -> valid_NotebookType n) /\ (oe <> None -> n = v))
  /\ (forall oe o, Orientation_UnmarshalJSON v b = (oe, o) ->
      (oe = None -> valid_Orientation o) /\ (oe <> None -> o = v))
  /\ (forall oe f, FileType_UnmarshalJSON v b = (oe, f) ->
      (oe = None -> valid_FileType f) /\ (oe <> None -> f = v))
  /\ (forall oe t, TextAlign_UnmarshalJSON v b = (oe, t) ->
      (oe = None -> valid_TextAlign t) /\ (oe <> None -> t = v)).
Proof.
  unfold NotebookType_UnmarshalJSON, Orientation_UnmarshalJSON,
    FileType_UnmarshalJSON, TextAlign_UnmarshalJSON,
    valid_NotebookType, valid_Orientation, valid_FileType, valid_TextAlign.
  destruct (Unmarshal_string b) as [msg | s];
    repeat split; intros;
    repeat match goal with
           | Hx : (if ?c then _ else _) = _ |- _ => destruct c
           | Hx : (_, _) = (_, _) |- _ => injection Hx as <- <-
           end; first [done | auto].
Qed.

(** X5.  [MarshalJSON] fails exactly for the values that the enumeration
    does not name, and for a named value it gives the quoted name. *)
Theorem MarshalJSON_spec (v : Z) :
  ((exists e, NotebookType_MarshalJSON v = inl e) <-> ~ valid_NotebookType v)
  /\ ((exists e, Orientation_MarshalJSON v = inl e) <-> ~ valid_Orientation v)
  /\ ((exists e, FileType_MarshalJSON v = inl e) <-> ~ valid_FileType v)
  /\ ((exists e, TextAlign_MarshalJSON v = inl e) <-> ~ valid_TextAlign v)
  /\ (valid_Orientation v ->
      Orientation_MarshalJSON v = inr (quoted (Orientation_String v)))
  /\ (valid_FileType v ->
      FileType_MarshalJSON v = inr (quoted (FileType_String v)))
  /\ (valid_TextAlign v ->
      TextAlign_MarshalJSON v = inr (quoted (TextAlign_String v))).
Proof.
  unfold NotebookType_MarshalJSON, Orientation_MarshalJSON, FileType_MarshalJSON,
    TextAlign_MarshalJSON, Orientation_String, FileType_String, TextAlign_String,
    valid_NotebookType, valid_Orientation, valid_FileType, valid_TextAlign,
    DocumentType, CollectionType, Portrait, Landscape, Notebook, Epub, Pdf,
    AlignLeft, AlignJustify.
  destruct (Z.eqb_spec v 0), (Z.eqb_spec v 1), (Z.eqb_spec v 2); cbn;
    repeat split;
    try (intros [? Hinl]; discriminate Hinl);
    try (intros; exfalso; lia);
    try (intros; lia);
    try (intros; eauto; fail);
    try (intros [? | [? | ?]]; first [lia | reflexivity]);
    try (intros [? | ?]; first [lia | reflexivity]).
Qed.

(** X6.  Round trip.  What [MarshalJSON] writes for a value of one of the
    four enumerations, [UnmarshalJSON] reads back as that value, whatever
    the receiver held, provided that the JSON reader reads the quoted name
    back. *)
Theorem MarshalJSON_UnmarshalJSON (v v0 : Z) (b : string) :
  (NotebookType_MarshalJSON v = inr b ->
   reads_quoted "DocumentType" -> reads_quoted "CollectionType" ->
   NotebookType_UnmarshalJSON v0 b = (None, v))
  /\ (Orientation_MarshalJSON v = inr b ->
      reads_quoted (Orientation_String v) ->
      Orientation_UnmarshalJSON v0 b = (None, v))
  /\ (FileType_MarshalJSON v = inr b ->
      reads_quoted (FileType_String v) ->
      FileType_UnmarshalJSON v0 b = (None, v))
  /\ (TextAlign_MarshalJSON v = inr b ->
      reads_quoted (TextAlign_String v) ->
      TextAlign_UnmarshalJSON v0 b = (None, v)).
Proof.
  unfold NotebookType_MarshalJSON, Orientation_MarshalJSON, FileType_MarshalJSON,
    TextAlign_MarshalJSON, NotebookType_UnmarshalJSON, Orientation_UnmarshalJSON,
    FileType_UnmarshalJSON, TextAlign_UnmarshalJSON,
    Orientation_String, FileType_String, TextAlign_String, reads_quoted,
    DocumentType, CollectionType, Portrait, Landscape, Notebook, Epub, Pdf,
    AlignLeft, AlignJustify.
  repeat split.
  - destruct (Z.eqb_spec v 0) as [-> |]; [| destruct (Z.eqb_spec v 1) as [-> |]];
      try discriminate; intros [= <-] H0 H1;
      [rewrite H0 | rewrite H1]; reflexivity.
  - destruct (Z.eqb_spec v 0) as [-> |]; [| destruct (Z.eqb_spec v 1) as [-> |]];
      cbn; try discriminate; intros [= <-] ->; reflexivity.
  - destruct (Z.eqb_spec v 0) as [-> |];
      [| destruct (Z.eqb_spec v 1) as [-> |];
         [| destruct (Z.eqb_spec v 2) as [-> |]]];
      cbn; try discriminate; intros [= <-] ->; reflexivity.
  - destruct (Z.eqb_spec v 0) as [-> |]; [| destruct (Z.eqb_spec v 1) as [-> |]];
      cbn; try discriminate; intros [= <-] ->; reflexivity.
Qed.

End CodecFacts.

Lemma UnmarshalJSON_valid_or_unchanged_witness :
  @rmtool.FileType_UnmarshalJSON samples.json 7 (rmtool.quoted "epub")
  = (None, rmtool.Epub)
  /\ snd (@rmtool.FileType_UnmarshalJSON samples.json 7 (rmtool.quoted "djvu")) = 7.
Proof.
  split.
  - destruct (@rmtool.FileType_UnmarshalJSON samples.json 7 (rmtool.quoted "epub"))
      as [oe f] eqn:E.
    destruct (proj1 (proj2 (proj2 (@UnmarshalJSON_valid_or_unchanged samples.json 7
                                     (rmtool.quoted "epub")))) oe f E) as [Hv _].
    vm_compute in E. by injection E as <- <-.
  - apply (proj1 (proj2 (proj2 (@UnmarshalJSON_valid_or_unchanged samples.json 7
                                  (rmtool.quoted "djvu"))))
                 (fst (@rmtool.FileType_UnmarshalJSON samples.json 7
                         (rmtool.quoted "djvu")))).
    + apply surjective_pairing.
    + vm_compute. discriminate.
Defined.

Lemma MarshalJSON_spec_witness :
  (exists e, rmtool.FileType_MarshalJSON 3 = inl e)
  /\ rmtool.FileType_MarshalJSON rmtool.Pdf = inr (rmtool.quoted "pdf").
Proof.
  split.
  - apply (proj2 (proj1 (proj2 (proj2 (MarshalJSON_spec 3))))).
    unfold rmtool.valid_FileType, rmtool.Notebook, rmtool.Epub, rmtool.Pdf. lia.
  - apply (proj1 (proj2 (proj2 (proj2 (proj2 (proj2 (MarshalJSON_spec rmtool.Pdf))))))).
    right. right. reflexivity.
Defined.

Lemma MarshalJSON_UnmarshalJSON_witness :
  @rmtool.FileType_UnmarshalJSON samples.json rmtool.Notebook (rmtool.quoted "pdf")
  = (None, rmtool.Pdf).
Proof.
  apply (proj1 (proj2 (proj2 (@MarshalJSON_UnmarshalJSON samples.json rmtool.Pdf
                                rmtool.Notebook (rmtool.quoted "pdf"))))).
  - reflexivity.
  - vm_compute. reflexivity.
Defined.

(** ** Writing page data *)

Section PagedataFacts.

Import rmtool.

Context `{IoWriter}.

Lemma WritePagedata_None (pd : list string) :
  forall w w', WritePagedata pd w = (None, w')
               <-> writes_ok (map pagedata_line pd) w w'.
Proof.
  induction pd as [|s pd IH]; intros w w'; cbn.
  - split.
    + intros [= <-]. constructor.
    + inversion 1; subst. reflexivity.
  - fold (pagedata_line s).
    destruct (Write w (pagedata_line s)) as [w1 [err|]] eqn:E.
    + split; [discriminate |]. inversion 1; subst. congruence.
    + rewrite IH. split.
      * intros Hok. econstructor; eauto.
      * inversion 1; subst.
        match goal with
        | Hw : Write _ _ = _ |- _ => rewrite E in Hw; injection Hw as <-
        end. assumption.
Qed.

Lemma WritePagedata_Some (pd : list string) :
  forall w err w', WritePagedata pd w = (Some err, w')
    <-> exists pre s post w1,
        pd = pre ++ s :: post
        /\ writes_ok (map pagedata_line pre) w w1
        /\ Write w1 (pagedata_line s) = (w', Some err).
Proof.
  induction pd as [|s pd IH]; intros w err w'; cbn.
  - split; [discriminate |]. intros (pre & ? & ? & ? & Hp & _). by destruct pre.
  - fold (pagedata_line s).
    destruct (Write w (pagedata_line s)) as [w1 [err1|]] eqn:E.
    + split.
      * intros [= <- <-]. exists [], s, pd, w. split; [done |].
        split; [constructor | done].
      * intros (pre & s' & post & w2 & Hp & Hok & Hf).
        destruct pre as [|q pre]; cbn in Hp; injection Hp as <- ->.
        -- inversion Hok; subst. congruence.
        -- inversion Hok; subst. congruence.
    + rewrite IH. split.
      * intros (pre & s' & post & w2 & -> & Hok & Hf).
        exists (s :: pre), s', post, w2. split; [done |].
        split; [econstructor; eauto | done].
      * intros (pre & s' & post & w2 & Hp & Hok & Hf).
        destruct pre as [|q pre]; cbn in Hp; injection Hp as <- ->.
        -- inversion Hok; subst. congruence.
        -- inversion Hok; subst.
           match goal with
           | Hw : Write w _ = _ |- _ => rewrite E in Hw; injection Hw as <-
           end.
           exists pre, s', post, w2. done.
Qed.

(** X7.  [WritePagedata] writes the entries in order, each followed by a
    line feed, one write per entry.  It returns no error exactly when every
    write succeeded; otherwise it returns the error of the first write
    that failed and writes none of the entries after it. *)
Theorem WritePagedata_spec (pd : list string) (w w' : W) :
  (WritePagedata pd w = (None, w') <-> writes_ok (map pagedata_line pd) w w')
  /\ (forall err,
        WritePagedata pd w = (Some err, w')
        <-> exists pre s post w1,
            pd = pre ++ s :: post
            /\ writes_ok (map pagedata_line pre) w w1
            /\ Write w1 (pagedata_line s) = (w', Some err)).
Proof.
  split; [apply WritePagedata_None | intros err; apply WritePagedata_Some].
Qed.

End PagedataFacts.

Lemma WritePagedata_spec_witness :
  @rmtool.WritePagedata samples.small_writer ["page-1"; "page-2"; "page-3"] ""
  = (Some "short write", "page-1" +:+ rmtool.newline +:+ "page-2" +:+ rmtool.newline).
Proof.
  apply (proj2 (proj2 (@WritePagedata_spec samples.small_writer
                         ["page-1"; "page-2"; "page-3"] "" _) "short write")).
  exists ["page-1"; "page-2"], "page-3", [],
    ("page-1" +:+ rmtool.newline +:+ "page-2" +:+ rmtool.newline).
  split; [reflexivity |]. split; [| reflexivity].
  repeat (econstructor; [reflexivity |]). constructor.
Defined.

Lemma string_app_nil_r (x : string) : (x +:+ "")%string = x.
Proof.
  induction x as [|a x IH]; [done |].
  change (String a (x +:+ "") = String a x). by rewrite IH.
Qed.

Lemma string_app_assoc (x y z : string) :
  ((x +:+ y) +:+ z)%string = (x +:+ (y +:+ z))%string.
Proof.
  induction x as [|a x IH]; [done |].
  change (String a ((x +:+ y) +:+ z) = String a (x +:+ (y +:+ z))).
  by rewrite IH.
Qed.

(** X8.  Written to a [bytes.Buffer], page data never fails, and the
    buffer grows by exactly the entries in order, each followed by a line
    feed; an empty list adds nothing. *)
Theorem WritePagedata_buffer (pd : list string) (buf : string) :
  @rmtool.WritePagedata rmtool.BytesBuffer pd buf
  = (None, buf +:+ String.concat "" (map rmtool.pagedata_line pd)).
Proof.
  revert buf. induction pd as [|s pd IH]; intros buf.
  - cbn. by rewrite string_app_nil_r.
  - change (@rmtool.WritePagedata rmtool.BytesBuffer (s :: pd) buf)
      with (@rmtool.WritePagedata rmtool.BytesBuffer pd
              (buf +:+ (s +:+ rmtool.newline))).
    rewrite IH. f_equal. rewrite string_app_assoc. f_equal.
    fold (rmtool.pagedata_line s).
    destruct pd as [|s' pd']; cbn [map String.concat].
    + by rewrite string_app_nil_r.
    + reflexivity.
Qed.

(** ** Log levels *)

Section LoggingFacts.

Import logging.

(** X9.  After [SetLevel l], for [l] one of the five levels, a message
    logged at level [m] reaches standard error exactly when [m] is at
    least [l]; so [LevelNone] silences everything.  A level outside the
    five leaves the loggers as they are. *)
Theorem SetLevel_threshold (l m : Level) (g : Loggers) (msg : string)
    (stderr : list Line) :
  (LevelDebug <= l <= LevelNone -> LevelDebug <= m <= LevelError ->
   log_at m (SetLevel l g) msg stderr
   = if l <=? m
     then stderr ++ [mkLine (nth (Z.to_nat m) ["D "; "I "; "W "; "E "] "") msg]
     else stderr)
  /\ (~ LevelDebug <= l <= LevelNone -> SetLevel l g = g).
Proof.
  unfold LevelDebug, LevelNone, LevelError. split.
  - intros Hl Hm.
    assert (Hl' : l = 0 \/ l = 1 \/ l = 2 \/ l = 3 \/ l = 4) by lia.
    assert (Hm' : m = 0 \/ m = 1 \/ m = 2 \/ m = 3) by lia.
    destruct Hl' as [-> | [-> | [-> | [-> | ->]]]];
      destruct Hm' as [-> | [-> | [-> | ->]]]; reflexivity.
  - intros Hl. unfold SetLevel, LevelDebug, LevelInfo, LevelWarning, LevelError,
      LevelNone.
    repeat match goal with
           | |- context [?a =? ?b] => destruct (Z.eqb_spec a b); [lia |]
           end. reflexivity.
Qed.

Lemma SetLevel_threshold_witness :
  Warning (SetLevel LevelInfo init) "careful" [] = [mkLine "W " "careful"]
  /\ SetLevel 9 init = init.
Proof.
  split.
  - apply (proj1 (SetLevel_threshold LevelInfo LevelWarning init "careful" []));
      unfold LevelDebug, LevelInfo, LevelWarning, LevelError, LevelNone; lia.
  - apply (proj2 (SetLevel_threshold 9 0 init "" [])).
    unfold LevelDebug, LevelNone. lia.
Defined.

End LoggingFacts.

(** ** The caches of the context *)

Section CacheFacts.

Import render.

Context (fs : FS).

(** X10.  A template that was loaded once is served from the cache: the
    load stores the image under its name, and every later call for that
    name returns the same image and leaves the context alone, whatever the
    files are by then. *)
Theorem loadTemplate_cached (c c' : Context) (name : string) (img : Decoded) :
  loadTemplate fs c name = (Ok img, c') ->
  tplCache c' !! name = Some img
  /\ forall fs', loadTemplate fs' c' name = (Ok img, c').
Proof.
  unfold loadTemplate, readPNG.
  destruct (tplCache c !! name) as [cached|] eqn:E.
  - intros [= <- <-]. split; [done |]. intros fs'. by rewrite E.
  - destruct (fs_png fs _) as [msg | i]; [discriminate |].
    intros [= <- <-]. cbn [tplCache set_tplCache].
    rewrite lookup_insert_eq. split; [done |].
    intros fs'. cbn [tplCache set_tplCache]. by rewrite ?lookup_insert_eq.
Qed.

(** X11.  [loadTemplate] touches nothing but the template cache, and the
    cache only grows: what was cached stays cached.  A load that fails
    fails with an error of the file system and leaves the whole context
    as it was, so nothing is cached for the name. *)
Theorem loadTemplate_frame (c c' : Context) (name : string) (r : result Decoded) :
  loadTemplate fs c name = (r, c') ->
  DataDir c' = DataDir c /\ palette c' = palette c
  /\ sprites c' = sprites c /\ spriteIndex c' = spriteIndex c
  /\ tplCache c ⊆ tplCache c'
  /\ (forall e, r = Err e -> (exists msg, e = External msg) /\ c' = c).
Proof.
  unfold loadTemplate, readPNG.
  destruct (tplCache c !! name) as [cached|] eqn:E.
  - intros [= <- <-]. split_and!; try done.
  - destruct (fs_png fs _) as [msg | i]; intros [= <- <-]; cbn.
    + split_and!; try done. intros ? [= <-]. eauto.
    + split_and!; try done. by apply insert_subseteq.
Qed.


(** X13.  Once the sprite sheet is in place it is never read again: masks
    and brushes are resolved from the cached sheet and index alone, so the
    result does not depend on the files, and the context is left as it
    is. *)
Theorem sprites_loaded_once `{Imaging} (fs' : FS) (c : Context) (name : string)
    (bt : lines.BrushType) (bc : lines.BrushColor) :
  is_Some (sprites c) ->
  lazyLoadSpritesheet fs c = (None, c)
  /\ loadBrushMask fs' c name = loadBrushMask fs c name
  /\ snd (loadBrushMask fs c name) = c
  /\ loadBrush fs' c bt bc = loadBrush fs c bt bc
  /\ snd (loadBrush fs c bt bc) = c.
Proof.
  intros Hs.
  assert (Hm : forall n, loadBrushMask fs' c n = loadBrushMask fs c n).
  { intros n. unfold loadBrushMask.
    by rewrite !lazyLoadSpritesheet_loaded by done. }
  split; [by apply lazyLoadSpritesheet_loaded |]. split; [apply Hm |].
  split.
  { eapply loadBrushMask_loaded; [done | apply surjective_pairing]. }
  split.
  - unfold loadBrush. destruct (Palette_Color (palette c) bc); [| done].
    destruct (String.eqb _ _); [done |]. by rewrite Hm.
  - eapply (loadBrush_loaded fs); [done | apply surjective_pairing].
Qed.

(** X14.  An index entry that is no larger than the sheet but does not
    overlap it is not an error: with the sheet loaded, [loadBrushMask]
    succeeds for such an entry and returns the empty image, without pixels
    and with the zero rectangle as bounds. *)
Theorem loadBrushMask_outside (c c' : Context) (name : string) (sheet : image.RGBA)
    (x0 y0 x1 y1 : Z) :
  lazyLoadSpritesheet fs c = (None, c') ->
  sprites c' = Some sheet ->
  spriteIndex c' !! name = Some [x0; y0; x1; y1] ->
  image.Dx (image.Rect x0 y0 x1 y1) <= image.Dx (image.Bounds sheet) ->
  image.Dy (image.Rect x0 y0 x1 y1) <= image.Dy (image.Bounds sheet) ->
  image.Empty (image.Intersect (image.Rect x0 y0 x1 y1) (image.Bounds sheet)) = true ->
  loadBrushMask fs c name = (Ok (image.mkRGBA [] 0 image.ZR), c').
Proof.
  intros L S I Hx Hy He. unfold loadBrushMask. rewrite L, I, S.
  destruct (Z.gtb_spec (image.Dx (image.Rect x0 y0 x1 y1))
                       (image.Dx (image.Bounds sheet))); [lia |].
  destruct (Z.gtb_spec (image.Dy (image.Rect x0 y0 x1 y1))
                       (image.Dy (image.Bounds sheet))); [lia |].
  cbn [orb]. unfold image.SubImage. fold (image.Bounds sheet). by rewrite He.
Qed.

End CacheFacts.

Lemma loadTemplate_cached_witness :
  render.loadTemplate samples.fs_none
    (snd (render.loadTemplate samples.fs_ok render.DefaultContext "Blank")) "Blank"
  = (Ok samples.sheet, snd (render.loadTemplate samples.fs_ok render.DefaultContext "Blank")).
Proof.
  apply (proj2 (loadTemplate_cached samples.fs_ok render.DefaultContext _ "Blank"
                  samples.sheet eq_refl)).
Defined.

Lemma loadTemplate_frame_witness :
  render.loadTemplate samples.fs_none render.DefaultContext "Blank"
  = (Err (External "no such file"), render.DefaultContext).
Proof.
  destruct (render.loadTemplate samples.fs_none render.DefaultContext "Blank") as [r c'] eqn:E.
  destruct (loadTemplate_frame samples.fs_none render.DefaultContext c' "Blank" r E)
    as (_ & _ & _ & _ & _ & Herr).
  vm_compute in E. injection E as <- <-. reflexivity.
Defined.


Lemma sprites_loaded_once_witness :
  let c := snd (render.lazyLoadSpritesheet samples.fs_ok render.DefaultContext) in
  @render.loadBrush samples.imaging samples.fs_none c lines.Pencil lines.Gray
  = @render.loadBrush samples.imaging samples.fs_ok c lines.Pencil lines.Gray.
Proof.
  cbv zeta.
  apply (@sprites_loaded_once samples.fs_ok samples.imaging samples.fs_none
           _ "pencil" lines.Pencil lines.Gray).
  vm_compute. eauto.
Defined.

Lemma loadBrushMask_outside_witness :
  fst (render.loadBrushMask samples.fs_outside render.DefaultContext "ballpoint")
  = Ok (image.mkRGBA [] 0 image.ZR).
Proof.
  rewrite (loadBrushMask_outside samples.fs_outside render.DefaultContext
             (snd (render.lazyLoadSpritesheet samples.fs_outside render.DefaultContext))
             "ballpoint"
             (render.copy_pixels samples.sheet (image.NewRGBA (image.Rect 0 0 4 4)))
             10 10 12 12).
  - reflexivity.
  - vm_compute. reflexivity.
  - vm_compute. reflexivity.
  - vm_compute. reflexivity.
  - vm_compute. discriminate.
  - vm_compute. discriminate.
  - vm_compute. reflexivity.
Defined.

(** ** More on brushes and colours *)

Section MoreBrushFacts.

Import render.

Context `{Imaging} (fs : FS).

(** X15.  [Palette.Color] returns the [nil] colour in two cases only: the
    caller's mapping has the key with a [nil] colour, or the mapping lacks
    the key and it is none of black, gray and white. *)
Theorem Palette_Color_nil_iff (p : Palette) (bc : lines.BrushColor) :
  Palette_Color p bc = None
  <-> colors p !! bc = Some None
      \/ (colors p !! bc = None /\ ~ builtin_color bc).
Proof.
  split.
  - intros Hn. destruct (colors p !! bc) as [o|] eqn:E.
    + left. rewrite (Palette_Color_present _ _ _ E) in Hn. by subst.
    + right. split; [done |]. intros Hb.
      apply builtin_color_default in Hb as [v Hv].
      rewrite (Palette_Color_absent _ _ E) in Hn.
      unfold color.Color in *. rewrite Hv in Hn. done.
  - intros [E | [E Hb]].
    + by apply Palette_Color_present.
    + rewrite (Palette_Color_absent _ _ E).
      destruct (defaultColors !! bc) as [[v|]|] eqn:D; try done.
      exfalso. apply Hb, builtin_color_default. eauto.
Qed.

(** X16.  The brush kinds of version 5 resolve exactly like the kinds
    they replace: same brush, same error, same context afterwards. *)
Theorem loadBrush_v5_kind (c : Context) (bt : lines.BrushType)
    (bc : lines.BrushColor) :
  loadBrush fs c (v5_kind bt) bc = loadBrush fs c bt bc.
Proof.
  destruct (Palette_Color (palette c) bc) as [v|] eqn:Hc.
  - destruct bt; try reflexivity;
      erewrite !loadBrush_named
        by (first [exact Hc | by rewrite brushNames_lookup]);
      reflexivity.
  - by rewrite !loadBrush_invalid_color.
Qed.

(** X17.  The paint brush has no mask of its own: it is resolved through
    the sprite of the ballpoint.  So it fails whenever that sprite cannot
    be loaded, although the brush that it builds carries the fill only. *)
Theorem loadBrush_PaintBrush (c : Context) (bt : lines.BrushType)
    (bc : lines.BrushColor) (v : color.value) :
  bt = lines.PaintBrush \/ bt = lines.PaintBrushV5 ->
  Palette_Color (palette c) bc = Some v ->
  (forall e c', loadBrushMask fs c "ballpoint" = (Err e, c') ->
                loadBrush fs c bt bc = (Err e, c'))
  /\ (forall img c', loadBrushMask fs c "ballpoint" = (Ok img, c') ->
                     loadBrush fs c bt bc
                     = (Ok (Paintbrush (image.NewUniform (Some v))), c')).
Proof.
  intros Hbt Hc.
  assert (Hn : brushNames !! bt = Some "ballpoint"%string)
    by (rewrite brushNames_lookup; by destruct Hbt as [-> | ->]).
  rewrite (loadBrush_named _ _ _ _ _ _ Hc Hn). split.
  - by intros e c' ->.
  - intros img c' ->. by destruct Hbt as [-> | ->].
Qed.

(** X18.  Every error of [loadBrush] has one of three origins: the colour
    does not resolve, the brush kind has no entry in the table of brush
    names, or loading the mask of that name failed; and resolving a brush
    leaves the data directory, the palette and the template cache as they
    were and never drops a sprite sheet that was loaded. *)
Theorem loadBrush_Err_frame (c c' : Context) (bt : lines.BrushType)
    (bc : lines.BrushColor) (r : result Brush) :
  loadBrush fs c bt bc = (r, c') ->
  (forall e, r = Err e ->
     (e = Errorf (InvalidColor bc) /\ Palette_Color (palette c) bc = None /\ c' = c)
     \/ (e = Errorf (UnsupportedBrushType bt) /\ brushNames !! bt = None /\ c' = c)
     \/ (exists name, brushNames !! bt = Some name
                      /\ loadBrushMask fs c name = (Err e, c')))
  /\ DataDir c' = DataDir c /\ palette c' = palette c /\ tplCache c' = tplCache c
  /\ (forall sheet, sprites c = Some sheet -> sprites c' = Some sheet).
Proof.
  intros E.
  assert (Hframe : DataDir c' = DataDir c /\ palette c' = palette c
                   /\ tplCache c' = tplCache c).
  { destruct (loadBrush_state _ _ _ _ _ _ E) as [-> | (name & rm & M)]; [done |].
    destruct (loadBrushMask_state _ _ _ _ _ M) as [oe L].
    apply lazyLoadSpritesheet_palette in L. tauto. }
  split; [| split_and!; try tauto].
  - intros e ->. revert E.
    destruct (Palette_Color (palette c) bc) as [v|] eqn:Hc.
    + destruct (brushNames !! bt) as [name|] eqn:Hn.
      * rewrite (loadBrush_named _ _ _ _ _ _ Hc Hn).
        destruct (loadBrushMask fs c name) as [[img | err] c1] eqn:M;
          intros [= <- <-]. right. right. eauto.
      * rewrite (loadBrush_unsupported _ _ _ _ _ Hc Hn). intros [= <- <-]. auto.
    + rewrite (loadBrush_invalid_color _ _ _ _ Hc). intros [= <- <-]. auto.
  - intros sheet Hs.
    rewrite (loadBrush_loaded fs c c' bt bc r) by (by rewrite ?Hs). done.
Qed.

End MoreBrushFacts.

Lemma Palette_Color_nil_iff_witness :
  render.Palette_Color samples.palette_empty (lines.OtherColor 3) = None.
Proof.
  apply (proj2 (Palette_Color_nil_iff samples.palette_empty (lines.OtherColor 3))).
  right. split; [reflexivity |]. intros [[=] | [[=] | [=]]].
Defined.

Lemma loadBrush_PaintBrush_witness :
  @render.loadBrush samples.imaging samples.fs_pencil render.DefaultContext
    lines.PaintBrush lines.Black
  = (Err (Errorf (NoSpriteImage "ballpoint")),
     snd (render.loadBrushMask samples.fs_pencil render.DefaultContext "ballpoint")).
Proof.
  apply (proj1 (@loadBrush_PaintBrush samples.imaging samples.fs_pencil
                  render.DefaultContext lines.PaintBrush lines.Black
                  (color.Gray16 0) (or_introl eq_refl) eq_refl)).
  vm_compute. reflexivity.
Defined.

Lemma loadBrush_Err_frame_witness :
  render.palette
    (snd (@render.loadBrush samples.imaging samples.fs_ok samples.ctx_red
            lines.Marker lines.Black))
  = samples.palette_red.
Proof.
  apply (@loadBrush_Err_frame samples.imaging samples.fs_ok samples.ctx_red _
           lines.Marker lines.Black _ (surjective_pairing _)).
Defined.

(** ** Copying the sprite sheet *)

Section CopyFacts.

Import render.

Lemma wrap64_small (z : Z) : - 2 ^ 63 <= z < 2 ^ 63 -> goint.wrap64 z = z.
Proof. intros Hz. unfold goint.wrap64. rewrite Z.mod_small; lia. Qed.

(** A loop that settles one group of targets per step and never unsettles
    a target settles all of them. *)
Lemma foldl_settles {P K T : Type} (f : P -> K -> P) (Inv : P -> Prop)
    (ok : K -> Prop) (tgts : K -> T -> Prop) (Has : P -> T -> Prop) :
  (forall p k, Inv p -> ok k -> Inv (f p k)) ->
  (forall p k t, Inv p -> ok k -> tgts k t -> Has (f p k) t) ->
  (forall p k t, Inv p -> ok k -> Has p t -> Has (f p k) t) ->
  forall l p, Forall ok l -> Inv p ->
    Inv (foldl f p l)
    /\ (forall t, Has p t -> Has (foldl f p l) t)
    /\ (forall k t, k ∈ l -> tgts k t -> Has (foldl f p l) t).
Proof.
  intros Hinv Hset Hkeep. induction l as [|k l IH]; intros p Hok Hp; cbn.
  - split; [done |]. split; [done |]. intros k t Hk. by apply elem_of_nil in Hk.
  - apply Forall_cons in Hok as [Hk Hl].
    destruct (IH (f p k) Hl (Hinv _ _ Hp Hk)) as (Hi & Hpres & Hall).
    split; [done |]. split.
    + intros t Ht. apply Hpres. by apply Hkeep.
    + intros k' t Hin Ht. apply elem_of_cons in Hin as [-> | Hin].
      * apply Hpres. by apply Hset.
      * by eapply Hall.
Qed.

Context (img : Decoded) (width height : Z).

Hypothesis Hbounds :
  dec_Bounds img = image.mkRectangle (image.Pt 0 0) (image.Pt width height).
Hypothesis Hwidth : 0 < width.
Hypothesis Hheight : 0 < height.
Hypothesis Hsize : 4 * width * height < 2 ^ 63.
Hypothesis Hbytes :
  forall x y, 0 <= x < width -> 0 <= y < height -> length (dec_At img x y) = 4%nat.

Local Abbreviation sheet_shape := (render.sheet_shape img width height).
Local Abbreviation settled := (render.settled img width height).

Lemma sheet_shape_new : sheet_shape (image.NewRGBA (dec_Bounds img)).
Proof.
  unfold sheet_shape, image.NewRGBA, image.Dx, image.Dy, goint.sub, goint.mul.
  rewrite Hbounds. cbn [image.Rect_ image.Stride image.Pix image.Max image.Min
                         image.X image.Y].
  rewrite !Z.sub_0_r.
  rewrite (wrap64_small width) by nia.
  rewrite (wrap64_small height) by nia.
  rewrite (wrap64_small (4 * width)) by nia.
  rewrite (wrap64_small (4 * width * height)) by nia.
  split; [done |]. split; [done |]. by rewrite length_replicate.
Qed.

Lemma sheet_shape_dims (p : image.RGBA) :
  sheet_shape p ->
  image.Dx (image.Bounds p) = width /\ image.Dy (image.Bounds p) = height.
Proof.
  intros (Hr & _ & _). unfold image.Dx, image.Dy, image.Bounds, goint.sub.
  rewrite Hr, Hbounds. cbn. rewrite !Z.sub_0_r.
  split; apply wrap64_small; nia.
Qed.

Lemma sheet_shape_offset (p : image.RGBA) (x y : Z) :
  sheet_shape p -> 0 <= x < width -> 0 <= y < height ->
  image.PixOffset p x y = 4 * (y * width + x).
Proof.
  intros (Hr & Hs & _) Hx Hy.
  unfold image.PixOffset, goint.add, goint.mul, goint.sub.
  rewrite Hr, Hs, Hbounds. cbn. rewrite !Z.sub_0_r.
  rewrite (wrap64_small y) by nia.
  rewrite (wrap64_small x) by nia.
  rewrite (wrap64_small (y * (4 * width))) by nia.
  rewrite (wrap64_small (x * 4)) by nia.
  rewrite wrap64_small by nia. lia.
Qed.

Lemma Set__in (p : image.RGBA) (x y : Z) (c : list Z) :
  sheet_shape p -> 0 <= x < width -> 0 <= y < height ->
  image.Set_ p x y c
  = image.mkRGBA (list_inserts (Z.to_nat (4 * (y * width + x))) c (image.Pix p))
                 (image.Stride p) (image.Rect_ p).
Proof.
  intros Hp Hx Hy. unfold image.Set_.
  rewrite (sheet_shape_offset p x y Hp Hx Hy).
  destruct Hp as (Hr & _ & _). unfold image.Point_In. rewrite Hr, Hbounds. cbn.
  destruct (Z.leb_spec 0 x), (Z.ltb_spec x width), (Z.leb_spec 0 y),
    (Z.ltb_spec y height); try lia. reflexivity.
Qed.

Lemma Set__shape (p : image.RGBA) (x y : Z) (c : list Z) :
  sheet_shape p -> 0 <= x < width -> 0 <= y < height ->
  sheet_shape (image.Set_ p x y c).
Proof.
  intros Hp Hx Hy. rewrite (Set__in p x y c Hp Hx Hy).
  destruct Hp as (Hr & Hs & Hl). unfold sheet_shape. cbn.
  by rewrite length_inserts.
Qed.


Lemma Set__settles (p : image.RGBA) (x y : Z) :
  sheet_shape p -> 0 <= x < width -> 0 <= y < height ->
  settled (image.Set_ p x y (dec_At img x y)) (x, y).
Proof.
  intros Hp Hx Hy _ _. cbn [fst snd]. intros j Hj.
  rewrite (sheet_shape_offset _ x y (Set__shape p x y _ Hp Hx Hy) Hx Hy).
  rewrite (Set__in p x y _ Hp Hx Hy). cbn [image.Pix].
  destruct Hp as (_ & _ & Hl).
  rewrite list_lookup_inserts.
  - f_equal. lia.
  - rewrite Hbytes by done. lia.
  - rewrite Hl. nia.
Qed.

Lemma Set__keeps (p : image.RGBA) (x y : Z) (t : Z * Z) :
  sheet_shape p -> 0 <= x < width -> 0 <= y < height ->
  settled p t -> settled (image.Set_ p x y (dec_At img x y)) t.
Proof.
  intros Hp Hx Hy Ht. destruct t as [x' y'].
  destruct (decide ((x', y') = (x, y))) as [[= -> ->] | Hne].
  { by apply Set__settles. }
  intros Hx' Hy'. cbn [fst snd] in *. intros j Hj.
  specialize (Ht Hx' Hy' j Hj). cbn [fst snd] in Ht.
  rewrite (sheet_shape_offset _ x' y' (Set__shape p x y _ Hp Hx Hy) Hx' Hy').
  rewrite (sheet_shape_offset _ x' y' Hp Hx' Hy') in Ht.
  rewrite (Set__in p x y _ Hp Hx Hy). cbn [image.Pix].
  assert (Hk : y' * width + x' <> y * width + x).
  { intros Heq. apply Hne.
    assert (y' = y) by nia. subst. f_equal. lia. }
  destruct (Z.lt_ge_cases (y' * width + x') (y * width + x)).
  - rewrite list_lookup_inserts_lt by lia. done.
  - rewrite list_lookup_inserts_ge by (rewrite Hbytes by done; lia). done.
Qed.

Lemma seqZ_range (n k : Z) : k ∈ seqZ 0 n -> 0 <= k < n.
Proof. rewrite elem_of_seqZ. lia. Qed.

(** X19.  The loop of [lazyLoadSpritesheet] that fills the sprite sheet
    copies every pixel.  For a decoded image of [width] by [height]
    pixels with its origin at zero, the sheet has the bounds of the image,
    four bytes per pixel in rows of [4 * width] bytes, and at every point
    of the image the sheet holds the bytes of the image's colour there. *)
Theorem copy_pixels_spec :
  let sheet := copy_pixels img (image.NewRGBA (dec_Bounds img)) in
  image.Bounds sheet = dec_Bounds img
  /\ image.Stride sheet = 4 * width
  /\ length (image.Pix sheet) = Z.to_nat (4 * width * height)
  /\ forall x y, 0 <= x < width -> 0 <= y < height ->
                 image.pixel_is sheet x y (dec_At img x y).
Proof.
  cbv zeta. unfold copy_pixels.
  pose proof sheet_shape_new as Hnew.
  destruct (sheet_shape_dims _ Hnew) as [Hdx _]. rewrite Hdx.
  set (row := fun (p : image.RGBA) (x : Z) =>
                foldl (fun p y => image.Set_ p x y (dec_At img x y)) p
                      (seqZ 0 (image.Dy (image.Bounds p)))).
  assert (Hrow : forall p x, sheet_shape p -> 0 <= x < width ->
             sheet_shape (row p x)
             /\ (forall t, settled p t -> settled (row p x) t)
             /\ (forall y, 0 <= y < height -> settled (row p x) (x, y))).
  { intros p x Hp Hx. unfold row.
    destruct (sheet_shape_dims _ Hp) as [_ Hdy]. rewrite Hdy.
    destruct (foldl_settles
                (fun p y => image.Set_ p x y (dec_At img x y))
                sheet_shape (fun y => 0 <= y < height)
                (fun y t => t = (x, y)) settled) with
      (l := seqZ 0 height) (p := p) as (Hi & Hk & Hs).
    - intros q y Hq Hy. by apply Set__shape.
    - intros q y t Hq Hy ->. by apply Set__settles.
    - intros q y t Hq Hy Ht. by apply Set__keeps.
    - apply Forall_forall. intros y. apply seqZ_range.
    - done.
    - split; [done |]. split; [done |]. intros y Hy.
      apply (Hs y); [| done]. apply elem_of_seqZ. lia. }
  destruct (foldl_settles row sheet_shape (fun x => 0 <= x < width)
              (fun x t => exists y, 0 <= y < height /\ t = (x, y)) settled) with
    (l := seqZ 0 width) (p := image.NewRGBA (dec_Bounds img))
    as ((Hr & Hs & Hl) & _ & Hall).
  - intros p x Hp Hx. by apply Hrow.
  - intros p x t Hp Hx (y & Hy & ->). by apply Hrow.
  - intros p x t Hp Hx Ht. by apply (Hrow p x Hp Hx).
  - apply Forall_forall. intros x. apply seqZ_range.
  - done.
  - split; [done |]. split; [done |]. split; [done |].
    intros x y Hx Hy.
    apply (Hall x (x, y)); [apply elem_of_seqZ; lia | eauto | done | done].
Qed.

End CopyFacts.

Lemma copy_pixels_spec_witness :
  let sheet := render.copy_pixels samples.sheet
                 (image.NewRGBA (render.dec_Bounds samples.sheet)) in
  image.Bounds sheet = image.Rect 0 0 4 4
  /\ image.pixel_is sheet 3 2 [3; 2; 0; 255].
Proof.
  destruct (copy_pixels_spec samples.sheet 4 4) as (Hb & _ & _ & Hpix).
  - reflexivity.
  - lia.
  - lia.
  - lia.
  - reflexivity.
  - cbv zeta. split; [exact Hb |]. apply (Hpix 3 2); lia.
Defined.

(** ** Pages of a PDF *)

Section PageFacts.

Import render.

Context `{Gofpdf} `{!PageRenderer}.

(** What a page that was put on the PDF leaves behind. *)
Lemma doRenderPdfPage_None (s s1 : St) (pdf pdf1 : Fpdf) (d : rmtool.Document)
    (pageID : string) (i : Z) :
  doRenderPdfPage s pdf d pageID i = (None, s1, pdf1) ->
  exists dr buf c1 w,
    rmtool.doc_Drawing d pageID = Ok dr
    /\ renderPNG (st_ctx s) dr false = (Ok buf, c1)
    /\ s1 = mkSt c1 (S (st_uuids s))
                 (st_calls s ++ [CallDrawing pageID; CallRenderPNG dr])
    /\ pdf1 = pdf ++ [AddPage;
                      RegisterImageOptionsReader (uuid_String (st_uuids s))
                        {| ImageType := "PNG"; ReadDpi := true |} buf;
                      ImageOptions (uuid_String (st_uuids s)) f_zero f_zero w f_zero
                        false {| ImageType := "PNG"; ReadDpi := true |} 0 ""].
Proof.
  unfold doRenderPdfPage, drawingToPdf.
  destruct (rmtool.doc_Drawing d pageID) as [dr | e0] eqn:D; [| discriminate].
  cbn [st_ctx st_call st_next_uuid st_uuids].
  destruct (renderPNG (st_ctx s) dr false) as [[buf | e1] c1] eqn:R;
    [| discriminate].
  destruct (GetPageSize _) as [wPage hPage].
  destruct (GetMargins _) as [[[ml mt] mr] mb].
  intros [= <- <-]. exists dr, buf, c1, (f_sub (f_sub wPage ml) mr).
  split; [done |]. split; [done |]. split.
  - unfold st_set_ctx, st_call, st_next_uuid. cbn. by rewrite <- app_assoc.
  - by rewrite <- !app_assoc.
Qed.



(** X21.  The PDF of a single page has exactly one page with one image
    and none of the document's metadata: no title, no dates and no
    footer. *)
Theorem PdfPage_one_page (s : St) (d : rmtool.Document) (pageID : string)
    (w : Writer) (dr : lines.Drawing) (buf : list Z) (c' : Context) :
  rmtool.doc_Drawing d pageID = Ok dr ->
  renderPNG (st_ctx s) dr false = (Ok buf, c') ->
  exists pdf s',
    PdfPage s d pageID w = (fst (Output pdf w), s', snd (Output pdf w))
    /\ page_count pdf = 1%nat
    /\ registered_ids pdf = [uuid_String (st_uuids s)]
    /\ List.filter is_metadata pdf = []
    /\ st_calls s' = st_calls s ++ [CallDrawing pageID; CallRenderPNG dr; CallOutput].
Proof.
  intros D R. unfold PdfPage.
  destruct (doRenderPdfPage s (setupPdf defaultPageSize None) d pageID 0)
    as [[[e|] s1] pdf1] eqn:E.
  - exfalso. revert E. unfold doRenderPdfPage, drawingToPdf. rewrite D.
    cbn [st_ctx st_call st_next_uuid st_uuids]. rewrite R.
    destruct (GetPageSize _) as [? ?]. destruct (GetMargins _) as [[[? ?] ?] ?].
    discriminate.
  - apply doRenderPdfPage_None in E as (dr' & buf' & c1 & w0 & D' & R' & -> & ->).
    rewrite D in D'. injection D' as <-. rewrite R in R'. injection R' as <- <-.
    match goal with |- context [Output ?p w] => exists p end.
    eexists. split; [destruct (Output _ w); reflexivity |].
    split_and!; try reflexivity. cbn. by rewrite <- app_assoc.
Qed.

End PageFacts.


Lemma PdfPage_one_page_witness :
  exists pdf s',
    @render.PdfPage samples.float samples.gofpdf samples.renderer samples.st0
      (samples.document rmtool.Notebook ["p1"]) "p1" []
    = (fst (@render.Output samples.float samples.gofpdf pdf []), s',
       snd (@render.Output samples.float samples.gofpdf pdf []))
    /\ @render.page_count samples.float pdf = 1%nat.
Proof.
  destruct (@render.renderPNG samples.float samples.renderer
              (render.st_ctx samples.st0) samples.drawing_ok false)
    as [[buf | e] c'] eqn:R; [| vm_compute in R; discriminate].
  destruct (@PdfPage_one_page samples.float samples.gofpdf samples.renderer
              samples.st0 (samples.document rmtool.Notebook ["p1"]) "p1" []
              samples.drawing_ok buf c' eq_refl R)
    as (pdf & s' & E & Hc & _).
  exists pdf, s'. split; [exact E | exact Hc].
Defined.

(** ** Entries of the sprite index *)

Section IndexFacts.

Import render.

Context (fs : FS).

(** X22.  How [loadBrushMask] fails on the index.  When the sprite sheet
    cannot be loaded it returns the error of the load.  When the sheet is
    there, a name without an index entry gives the error for a missing
    sprite image, and an entry that does not have exactly four numbers
    gives the error for an invalid sprite entry; in both cases the
    context is as the load left it. *)
Theorem loadBrushMask_index_errors (c c' : Context) (name : string)
    (oe : option error) :
  lazyLoadSpritesheet fs c = (oe, c') ->
  (forall e, oe = Some e -> loadBrushMask fs c name = (Err e, c'))
  /\ (oe = None -> spriteIndex c' !! name = None ->
      loadBrushMask fs c name = (Err (Errorf (NoSpriteImage name)), c'))
  /\ (forall idx, oe = None -> spriteIndex c' !! name = Some idx ->
                  length idx <> 4%nat ->
                  loadBrushMask fs c name = (Err (Errorf (InvalidSpriteEntry name)), c')).
Proof.
  intros L. unfold loadBrushMask. rewrite L. split_and!.
  - by intros e ->.
  - by intros -> ->.
  - intros idx -> -> Hlen.
    destruct idx as [|x0 [|y0 [|x1 [|y1 [|? ?]]]]]; cbn in Hlen; done.
Qed.

End IndexFacts.

Lemma loadBrushMask_index_errors_witness :
  render.loadBrushMask samples.fs_pencil render.DefaultContext "marker"
  = (Err (Errorf (NoSpriteImage "marker")),
     snd (render.lazyLoadSpritesheet samples.fs_pencil render.DefaultContext)).
Proof.
  apply (proj1 (proj2 (loadBrushMask_index_errors samples.fs_pencil
                         render.DefaultContext _ "marker" None eq_refl))).
  - reflexivity.
  - vm_compute. reflexivity.
Defined.
